(** * The OpenVPN 3 Linux configuration manager (src/configmgr/configmgr.hpp)

    A shallow embedding of [ConfigurationObject] and [ConfigManagerObject]:
    the D-Bus callbacks become functions over an explicit manager state, the
    exceptions become error replies, and every value the callbacks obtain
    from the environment (the clock, the generated object path, the contents
    of a member that the constructor leaves uninitialised) is an explicit
    argument. *)

From Stdlib Require Import String Ascii List Bool NArith ZArith Lia.
From Stdlib Require Import Sorted OrderedTypeEx.
Import ListNotations.

Local Open Scope string_scope.
Local Open Scope N_scope.

(** ** Basic types *)

(** [uid_t]: the numeric user id the D-Bus daemon reports for a sender.  The
    callbacks only ever use the sender's bus name through [GetUID(sender)],
    so a sender is represented by that uid. *)
Definition uid_t := N.

Definition time_t := Z.

(** [g_variant_new_uint64] of a [time_t]: the signed value is converted to
    [guint64], that is, taken modulo 2^64. *)
Definition to_guint64 (t : time_t) : Z := (t mod 18446744073709551616)%Z.

(** [unsigned int] arithmetic: [used_count++] wraps at 2^32. *)
Definition UINT_MODULUS : N := 4294967296.

Definition uint_incr (n : N) : N := (n + 1) mod UINT_MODULUS.

(** ** std::map<std::string, V>

    An association list kept in ascending key order; iteration (range-for)
    visits the entries in that order. *)
Module StdMap.
Section Ops.
Context {V : Type}.

Definition t := list (string * V).

Definition empty : t := [].

Fixpoint find (k : string) (m : t) : option V :=
  match m with
  | [] => None
  | (k', v) :: m' => if String.eqb k k' then Some v else find k m'
  end.

(** [m[k] = v] *)
Fixpoint assign (k : string) (v : V) (m : t) : t :=
  match m with
  | [] => [(k, v)]
  | (k', v') :: m' =>
      match String.compare k k' with
      | Lt => (k, v) :: (k', v') :: m'
      | Eq => (k, v) :: m'
      | Gt => (k', v') :: assign k v m'
      end
  end.

(** [m.erase(k)] *)
Definition erase (k : string) (m : t) : t :=
  filter (fun kv => negb (String.eqb k (fst kv))) m.

(** Mutation of the mapped value through the stored pointer: the entry
    keeps its key and its place. *)
Fixpoint update (k : string) (v : V) (m : t) : t :=
  match m with
  | [] => []
  | (k', v') :: m' =>
      if String.eqb k k' then (k', v) :: m' else (k', v') :: update k v m'
  end.

Definition keys (m : t) : list string := map fst m.

Definition ascending (m : t) : Prop :=
  StronglySorted (fun a b => String.compare a b = Lt) (keys m).
End Ops.
Arguments t : clear implicits.
End StdMap.

(** ** DBusCredentials (dbus/connection-creds.hpp)

    The base class of [ConfigurationObject], constructed from the
    connection and the creator's uid.  It carries the owner, the access
    list and the public flag; [locked_down] is a private member of the
    derived class and out of its reach. *)
Module DBusCredentials.

(** Modelled from the spec: the members of the class are declared in
    dbus/connection-creds.hpp.  The access control list holds the owner,
    the set of granted subjects and the public-read flag. *)
Record t := mk {
  owner : uid_t;
  acl_list : list uid_t;
  acl_public : bool
}.

(** The backend VPN client process runs as root: the callbacks compare
    [GetUID(sender)] with 0. *)
Definition root : uid_t := 0.

(** Modelled from the spec: a new profile is owned by its creator, has
    nobody granted and is not public. *)
Definition init (creator : uid_t) : t := mk creator [] false.

(** Modelled from the spec: [CheckOwnerAccess(sender, allow_root)] is
    declared in dbus/connection-creds.hpp, which is not part of the
    sources at hand.  Owner mode: allowed iff the subject is the owner;
    with [allow_root] the call site additionally lets the privileged
    backend through.  [true] stands for a normal return, [false] for a
    thrown [DBusCredentialsException]. *)
Definition CheckOwnerAccess (c : t) (sender : uid_t) (allow_root : bool) : bool :=
  (sender =? owner c) || (allow_root && (sender =? root)).

(** Modelled from the spec: [CheckACL(sender, allow_root)] is declared in
    dbus/connection-creds.hpp, which is not part of the sources at hand.
    Read mode without the lock-down step (the callers test [locked_down]
    themselves): owner, then backend when the call site permits the
    bypass, then the granted set, then the public flag. *)
Definition CheckACL (c : t) (sender : uid_t) (allow_root : bool) : bool :=
  if sender =? owner c then true
  else if allow_root && (sender =? root) then true
  else if existsb (N.eqb sender) (acl_list c) then true
  else acl_public c.

(** Modelled from the spec: granting an already granted subject is a
    no-op success. *)
Definition GrantAccess (c : t) (uid : uid_t) : t :=
  if existsb (N.eqb uid) (acl_list c) then c
  else mk (owner c) (acl_list c ++ [uid]) (acl_public c).

(** Modelled from the spec: revoking an absent subject is a no-op
    success. *)
Definition RevokeAccess (c : t) (uid : uid_t) : t :=
  mk (owner c) (filter (fun u => negb (u =? uid)) (acl_list c)) (acl_public c).

(** Modelled from the spec: [SetPublicAccess] stores the public-read
    flag of the access control list. *)
Definition SetPublicAccess (c : t) (b : bool) : t :=
  mk (owner c) (acl_list c) b.

(** Modelled from the spec: [GetOwner], [GetPublicAccess] and
    [GetAccessList] hand over the owner, the public-read flag and the
    granted set as they are. *)
Definition GetOwner (c : t) : uid_t := owner c.
Definition GetPublicAccess (c : t) : bool := acl_public c.
Definition GetAccessList (c : t) : list uid_t := acl_list c.

End DBusCredentials.

(** ** Values and replies on the bus *)

Inductive GVariant :=
| GVnull
| GVstring (s : string)
| GVboolean (b : bool)
| GVuint32 (n : N)
| GVuint64 (n : Z)
| GVuint32_array (l : list N)
| GVobject_path (p : string)
| GVobject_path_array (l : list string)
| GVimport (name config_str : string) (single_use persistent : bool).

Inductive dbus_error :=
| AccessDenied                (* a DBusCredentialsException handed to the caller *)
| ReadOnly                    (* net.openvpn.v3.error.ReadOnly, G_IO_ERROR_READ_ONLY *)
| InvalidData                 (* net.openvpn.v3.error.InvalidData *)
| AliasExists (msg : string)  (* G_IO_ERROR_EXISTS *)
| Failed (msg : string)       (* G_IO_ERROR_FAILED *)
| ParseError (msg : string)   (* thrown by OptionList::parse_from_config *)
| InvalidArgs                 (* arguments do not match the introspection data *)
| UnknownObject.              (* nothing is registered at the object path *)

Inductive reply :=
| Return (v : GVariant)
| Error (e : dbus_error)
| NoReply.

(** ** g_variant_is_object_path *)

Definition path_char (c : ascii) : bool :=
  let n := N_of_ascii c in
  ((48 <=? n) && (n <=? 57)) || ((65 <=? n) && (n <=? 90))
  || ((97 <=? n) && (n <=? 122)) || (n =? 95).

Fixpoint path_elements (s : string) (after_slash : bool) : bool :=
  match s with
  | EmptyString => negb after_slash
  | String c s' =>
      if Ascii.eqb c "/"%char then negb after_slash && path_elements s' true
      else path_char c && path_elements s' false
  end.

Definition g_variant_is_object_path (s : string) : bool :=
  match s with
  | String c s' =>
      Ascii.eqb c "/"%char
      && match s' with EmptyString => true | _ => path_elements s' true end
  | EmptyString => false
  end.

Definition OpenVPN3DBus_rootp_configuration : string :=
  "/net/openvpn/v3/configuration".

Definition alias_path (aliasname : string) : string :=
  OpenVPN3DBus_rootp_configuration ++ "/aliases/" ++ aliasname.

(** Values supplied by the environment of a call: the path returned by
    [generate_path_uuid], the reading of [std::time(nullptr)], and the
    contents of the freshly allocated [locked_down] member, for which the
    constructor has no initialiser. *)
Record environment := {
  generated_path : string;
  clock : time_t;
  uninitialised_bool : bool
}.

(** A stand-in for the option parser, used to run the service on concrete
    calls: it keeps the profile text as it is and refuses a text of more
    than [max_profile_size] bytes with the message the constructor hands to
    [OptionList::Limits]. *)
Definition plain_parse (max_profile_size : nat) (cfgstr : string)
  : string + string :=
  if Nat.ltb max_profile_size (String.length cfgstr)
  then inl "profile is too large"
  else inr cfgstr.

Definition plain_export (opts : string) : string := opts.

Definition plain_json_export (opts : string) : string := "{" ++ opts ++ "}".

Section ConfigManager.

(** The option parser of the OpenVPN 3 core library: the parsed profile,
    the parser with the [OptionList::Limits] guard built from
    [ProfileParseLimits] (a failure carries the message of the exception
    it throws), and the two exporters. *)
Variable OptionListJSON : Type.
Variable parse_from_config : string -> string + OptionListJSON.
Variable string_export : OptionListJSON -> string.
Variable json_export : OptionListJSON -> string.

(** ** ConfigurationObject *)

Record ConfigurationObject := {
  creds : DBusCredentials.t;
  name : string;
  import_tstamp : time_t;
  last_use_tstamp : time_t;
  used_count : N;
  valid : bool;
  readonly : bool;
  single_use : bool;
  persistent : bool;
  locked_down : bool;
  persist_tun : bool;
  alias : option string;
  options : OptionListJSON
}.

Definition set_creds (o : ConfigurationObject) (c : DBusCredentials.t) :=
  {| creds := c; name := name o; import_tstamp := import_tstamp o;
     last_use_tstamp := last_use_tstamp o; used_count := used_count o;
     valid := valid o; readonly := readonly o; single_use := single_use o;
     persistent := persistent o; locked_down := locked_down o;
     persist_tun := persist_tun o; alias := alias o; options := options o |}.

Definition set_name (o : ConfigurationObject) (s : string) :=
  {| creds := creds o; name := s; import_tstamp := import_tstamp o;
     last_use_tstamp := last_use_tstamp o; used_count := used_count o;
     valid := valid o; readonly := readonly o; single_use := single_use o;
     persistent := persistent o; locked_down := locked_down o;
     persist_tun := persist_tun o; alias := alias o; options := options o |}.

Definition set_used (o : ConfigurationObject) (n : N) (t : time_t) :=
  {| creds := creds o; name := name o; import_tstamp := import_tstamp o;
     last_use_tstamp := t; used_count := n;
     valid := valid o; readonly := readonly o; single_use := single_use o;
     persistent := persistent o; locked_down := locked_down o;
     persist_tun := persist_tun o; alias := alias o; options := options o |}.

Definition set_readonly (o : ConfigurationObject) (b : bool) :=
  {| creds := creds o; name := name o; import_tstamp := import_tstamp o;
     last_use_tstamp := last_use_tstamp o; used_count := used_count o;
     valid := valid o; readonly := b; single_use := single_use o;
     persistent := persistent o; locked_down := locked_down o;
     persist_tun := persist_tun o; alias := alias o; options := options o |}.

Definition set_locked_down (o : ConfigurationObject) (b : bool) :=
  {| creds := creds o; name := name o; import_tstamp := import_tstamp o;
     last_use_tstamp := last_use_tstamp o; used_count := used_count o;
     valid := valid o; readonly := readonly o; single_use := single_use o;
     persistent := persistent o; locked_down := b;
     persist_tun := persist_tun o; alias := alias o; options := options o |}.

Definition set_persist_tun (o : ConfigurationObject) (b : bool) :=
  {| creds := creds o; name := name o; import_tstamp := import_tstamp o;
     last_use_tstamp := last_use_tstamp o; used_count := used_count o;
     valid := valid o; readonly := readonly o; single_use := single_use o;
     persistent := persistent o; locked_down := locked_down o;
     persist_tun := b; alias := alias o; options := options o |}.

Definition set_alias (o : ConfigurationObject) (a : option string) :=
  {| creds := creds o; name := name o; import_tstamp := import_tstamp o;
     last_use_tstamp := last_use_tstamp o; used_count := used_count o;
     valid := valid o; readonly := readonly o; single_use := single_use o;
     persistent := persistent o; locked_down := locked_down o;
     persist_tun := persist_tun o; alias := a; options := options o |}.

(** The constructor.  The member initialisers come first; the body reads
    the "(ssbb)" tuple, parses the profile (a parser exception leaves the
    constructor, so no object comes into being) and sets [valid]. *)
Definition new_ConfigurationObject (creator : uid_t) (cfgname cfgstr : string)
    (single persist : bool) (env : environment)
  : string + ConfigurationObject :=
  match parse_from_config cfgstr with
  | inl msg => inl msg
  | inr opts =>
      inr {| creds := DBusCredentials.init creator;
             name := cfgname;
             import_tstamp := clock env;
             last_use_tstamp := 0%Z;
             used_count := 0;
             valid := true;
             readonly := false;
             single_use := single;
             persistent := persist;
             locked_down := uninitialised_bool env;
             persist_tun := false;
             alias := None;
             options := opts |}
  end.

(** What is left of the object when a method call returns: [delete this]
    ends its life. *)
Inductive lifetime :=
| Alive (o : ConfigurationObject)
| Deleted.

(** [ConfigurationObject::callback_method_call] *)
Definition callback_method_call (o : ConfigurationObject) (sender : uid_t)
    (method_name : string) (params : GVariant) (now : time_t)
  : reply * lifetime :=
  if ("Fetch" =? method_name)%string then
    if (if negb (locked_down o)
        then DBusCredentials.CheckACL (creds o) sender true
        else DBusCredentials.CheckOwnerAccess (creds o) sender true)
    then
      let r := Return (GVstring (string_export (options o))) in
      if (sender =? 0)%N then
        if single_use o then (r, Deleted)
        else (r, Alive (set_used o (uint_incr (used_count o)) now))
      else (r, Alive o)
    else (Error AccessDenied, Alive o)
  else if ("FetchJSON" =? method_name)%string then
    if (if negb (locked_down o)
        then DBusCredentials.CheckACL (creds o) sender false
        else DBusCredentials.CheckOwnerAccess (creds o) sender false)
    then (Return (GVstring (json_export (options o))), Alive o)
    else (Error AccessDenied, Alive o)
  else if ("SetOption" =? method_name)%string then
    if readonly o then (Error ReadOnly, Alive o)
    else if DBusCredentials.CheckOwnerAccess (creds o) sender false
    then (Return GVnull, Alive o)
    else (Error AccessDenied, Alive o)
  else if ("AccessGrant" =? method_name)%string then
    if readonly o then (Error ReadOnly, Alive o)
    else if DBusCredentials.CheckOwnerAccess (creds o) sender false
    then match params with
         | GVuint32 uid =>
             (Return GVnull,
              Alive (set_creds o (DBusCredentials.GrantAccess (creds o) uid)))
         | _ => (Error InvalidArgs, Alive o)
         end
    else (Error AccessDenied, Alive o)
  else if ("AccessRevoke" =? method_name)%string then
    if readonly o then (Error ReadOnly, Alive o)
    else if DBusCredentials.CheckOwnerAccess (creds o) sender false
    then match params with
         | GVuint32 uid =>
             (Return GVnull,
              Alive (set_creds o (DBusCredentials.RevokeAccess (creds o) uid)))
         | _ => (Error InvalidArgs, Alive o)
         end
    else (Error AccessDenied, Alive o)
  else if ("Seal" =? method_name)%string then
    if DBusCredentials.CheckOwnerAccess (creds o) sender false
    then if valid o
         then (Return GVnull, Alive (set_readonly o true))
         else (Error InvalidData, Alive o)
    else (Error AccessDenied, Alive o)
  else if ("Remove" =? method_name)%string then
    if DBusCredentials.CheckOwnerAccess (creds o) sender false
    then (Return GVnull, Deleted)
    else (Error AccessDenied, Alive o)
  else (NoReply, Alive o).

(** [ConfigurationObject::callback_get_property] *)
Definition callback_get_property (o : ConfigurationObject) (sender : uid_t)
    (property_name : string) : reply :=
  if ("owner" =? property_name)%string then
    Return (GVuint32 (DBusCredentials.GetOwner (creds o)))
  else
    let allow_root := ("persist_tun" =? property_name)%string in
    if DBusCredentials.CheckACL (creds o) sender allow_root then
      if ("single_use" =? property_name)%string then Return (GVboolean (single_use o))
      else if ("persistent" =? property_name)%string then Return (GVboolean (persistent o))
      else if ("valid" =? property_name)%string then Return (GVboolean (valid o))
      else if ("readonly" =? property_name)%string then Return (GVboolean (readonly o))
      else if ("name" =? property_name)%string then Return (GVstring (name o))
      else if ("import_timestamp" =? property_name)%string
      then Return (GVuint64 (to_guint64 (import_tstamp o)))
      else if ("last_used_timestamp" =? property_name)%string
      then Return (GVuint64 (to_guint64 (last_use_tstamp o)))
      else if ("used_count" =? property_name)%string then Return (GVuint32 (used_count o))
      else if ("alias" =? property_name)%string
      then Return (GVstring (match alias o with Some a => a | None => "" end))
      else if ("locked_down" =? property_name)%string then Return (GVboolean (locked_down o))
      else if ("public_access" =? property_name)%string
      then Return (GVboolean (DBusCredentials.GetPublicAccess (creds o)))
      else if ("persist_tun" =? property_name)%string then Return (GVboolean (persist_tun o))
      else if ("acl" =? property_name)%string
      then Return (GVuint32_array (DBusCredentials.GetAccessList (creds o)))
      else Error (Failed "Unknown property")
    else Error AccessDenied.

(** ** The service state

    [config_objects] is the member of [ConfigManagerObject];
    [alias_objects] are the [ConfigurationAlias] objects exported on the
    connection, by alias name, each with the [cfgpath] it points at. *)
Record Service := {
  config_objects : StdMap.t ConfigurationObject;
  alias_objects : StdMap.t string
}.

Definition no_objects : Service :=
  {| config_objects := StdMap.empty; alias_objects := StdMap.empty |}.

(** The object paths exported on the connection. *)
Definition registered (objs : StdMap.t ConfigurationObject)
    (aliases : StdMap.t string) (p : string) : bool :=
  match StdMap.find p objs with
  | Some _ => true
  | None => existsb (fun a => (alias_path a =? p)%string) (StdMap.keys aliases)
  end.

(** Modelled from the spec: [DBusObject::RegisterObject] is declared in
    dbus/core.hpp, which is not part of the sources at hand.  A name that
    is already taken is a conflict: registration throws a [DBusException]
    when the path already carries an object, and exports the object
    otherwise.  [true] stands for a normal return. *)
Definition RegisterObject (objs : StdMap.t ConfigurationObject)
    (aliases : StdMap.t string) (p : string) : bool :=
  negb (registered objs aliases p).

(** [ConfigurationObject::callback_set_property]; the result carries the
    object and the exported aliases as the call leaves them, also when it
    ends in an exception. *)
Definition callback_set_property (s : Service) (obj_path : string)
    (o : ConfigurationObject) (sender : uid_t) (property_name : string)
    (value : GVariant)
  : reply * ConfigurationObject * StdMap.t string :=
  if readonly o then (Error ReadOnly, o, alias_objects s)
  else if DBusCredentials.CheckOwnerAccess (creds o) sender false then
    if ("alias" =? property_name)%string then
      let aliases :=
        match alias o with
        | Some old => StdMap.erase old (alias_objects s)
        | None => alias_objects s
        end in
      match value with
      | GVstring aliasname =>
          if negb (g_variant_is_object_path (alias_path aliasname)) then
            (Error (AliasExists "Specified alias is invalid"),
             set_alias o None, aliases)
          else if RegisterObject (config_objects s) aliases (alias_path aliasname)
          then (Return (GVstring aliasname),
                set_alias o (Some aliasname),
                StdMap.assign aliasname obj_path aliases)
          else (Error (AliasExists "Object path is already registered"),
                set_alias o None, aliases)
      | _ => (Error InvalidArgs, set_alias o None, aliases)
      end
    else if ("name" =? property_name)%string then
      match value with
      | GVstring s' => (Return (GVstring s'), set_name o s', alias_objects s)
      | _ => (Error InvalidArgs, o, alias_objects s)
      end
    else if ("locked_down" =? property_name)%string then
      match value with
      | GVboolean b => (Return (GVboolean b), set_locked_down o b, alias_objects s)
      | _ => (Error InvalidArgs, o, alias_objects s)
      end
    else if ("public_access" =? property_name)%string then
      match value with
      | GVboolean b =>
          (Return (GVboolean b),
           set_creds o (DBusCredentials.SetPublicAccess (creds o) b),
           alias_objects s)
      | _ => (Error InvalidArgs, o, alias_objects s)
      end
    else if ("persist_tun" =? property_name)%string then
      match value with
      | GVboolean b => (Return (GVboolean b), set_persist_tun o b, alias_objects s)
      | _ => (Error InvalidArgs, o, alias_objects s)
      end
    else (Error (Failed "Denied"), o, alias_objects s)
  else (Error AccessDenied, o, alias_objects s).

(** ** ConfigManagerObject *)

(** [ConfigManagerObject::remove_config_object], the [remove_callback]
    the destructor of a configuration object runs. *)
Definition remove_config_object (cfgpath : string) (s : Service) : Service :=
  {| config_objects := StdMap.erase cfgpath (config_objects s);
     alias_objects := alias_objects s |}.

(** The loop of FetchAvailableConfigs: an entry is added when
    [CheckACL(sender)] returns, and skipped when it throws. *)
Definition available_configs (s : Service) (sender : uid_t) : list string :=
  StdMap.keys
    (filter (fun item => DBusCredentials.CheckACL (creds (snd item)) sender false)
            (config_objects s)).

(** [ConfigManagerObject::callback_method_call] *)
Definition manager_method_call (s : Service) (sender : uid_t)
    (method_name : string) (params : GVariant) (env : environment)
  : reply * Service :=
  if ("Import" =? method_name)%string then
    match params with
    | GVimport cfgname cfgstr single persist =>
        let cfgpath := generated_path env in
        match new_ConfigurationObject sender cfgname cfgstr single persist env with
        | inl msg => (Error (ParseError msg), s)
        | inr cfgobj =>
            if RegisterObject (config_objects s) (alias_objects s) cfgpath
            then (Return (GVobject_path cfgpath),
                  {| config_objects :=
                       StdMap.assign cfgpath cfgobj (config_objects s);
                     alias_objects := alias_objects s |})
            else (Error (Failed "Object path is already registered"), s)
        end
    | _ => (Error InvalidArgs, s)
    end
  else if ("FetchAvailableConfigs" =? method_name)%string then
    (Return (GVobject_path_array (available_configs s sender)), s)
  else (NoReply, s).

(** ** Calls arriving on the bus *)

Inductive call :=
| ManagerCall (sender : uid_t) (method_name : string) (params : GVariant)
              (env : environment)
| ObjectCall (obj_path : string) (sender : uid_t) (method_name : string)
             (params : GVariant) (now : time_t)
| PropertyGet (obj_path : string) (sender : uid_t) (property_name : string)
| PropertySet (obj_path : string) (sender : uid_t) (property_name : string)
              (value : GVariant).

(** Modelled from the spec: the dispatch of a call to the object exported
    at its path belongs to the bus transport, which is not part of the
    sources at hand.  [Get(id)] yields the profile or NotFound: a call
    on a path that carries no configuration object is answered with
    [UnknownObject] and changes nothing. *)
Definition step (s : Service) (c : call) : reply * Service :=
  match c with
  | ManagerCall sender method_name params env =>
      manager_method_call s sender method_name params env
  | ObjectCall obj_path sender method_name params now =>
      match StdMap.find obj_path (config_objects s) with
      | None => (Error UnknownObject, s)
      | Some o =>
          match callback_method_call o sender method_name params now with
          | (r, Alive o') =>
              (r, {| config_objects := StdMap.update obj_path o' (config_objects s);
                     alias_objects := alias_objects s |})
          | (r, Deleted) => (r, remove_config_object obj_path s)
          end
      end
  | PropertyGet obj_path sender property_name =>
      match StdMap.find obj_path (config_objects s) with
      | None => (Error UnknownObject, s)
      | Some o => (callback_get_property o sender property_name, s)
      end
  | PropertySet obj_path sender property_name value =>
      match StdMap.find obj_path (config_objects s) with
      | None => (Error UnknownObject, s)
      | Some o =>
          match callback_set_property s obj_path o sender property_name value with
          | (r, o', aliases) =>
              (r, {| config_objects := StdMap.update obj_path o' (config_objects s);
                     alias_objects := aliases |})
          end
      end
  end.

Definition run (s : Service) (cs : list call) : Service :=
  fold_left (fun st c => snd (step st c)) cs s.

(** The object path a call is addressed to, if it targets a
    configuration object. *)
Definition target (c : call) : option string :=
  match c with
  | ManagerCall _ _ _ _ => None
  | ObjectCall p _ _ _ _ | PropertyGet p _ _ | PropertySet p _ _ _ => Some p
  end.

(** The object path an Import call receives from [generate_path_uuid]. *)
Definition generated (c : call) : option string :=
  match c with
  | ManagerCall _ method_name _ env =>
      if ("Import" =? method_name)%string then Some (generated_path env) else None
  | _ => None
  end.


(** The state the service reaches, from start-up, through the calls [cs]. *)
Definition reached (cs : list call) : Service := run no_objects cs.

(** ** The specification's wording, for comparison with the code *)

(** The Read evaluator of section 4.1, steps 1 to 6, with the lock-down
    step inside the evaluator. *)
Definition spec_CheckAccess_Read (o : ConfigurationObject) (subject : uid_t)
    (backend_bypass : bool) : bool :=
  if subject =? DBusCredentials.owner (creds o) then true
  else if locked_down o
       then backend_bypass && (subject =? DBusCredentials.root)
  else if backend_bypass && (subject =? DBusCredentials.root) then true
  else if existsb (N.eqb subject) (DBusCredentials.acl_list (creds o)) then true
  else DBusCredentials.acl_public (creds o).

(** The identities handed out by the Import calls of a trace, in the
    order of the calls. *)
Fixpoint import_order (cs : list call) : list string :=
  match cs with
  | [] => []
  | c :: cs' =>
      match generated c with
      | Some p => p :: import_order cs'
      | None => import_order cs'
      end
  end.

(** List of section 4.4: the identities of the live profiles the Read
    evaluator allows, in the insertion order of the Import calls. *)
Definition spec_List (s : Service) (cs : list call) (caller : uid_t)
  : list string :=
  filter (fun p => match StdMap.find p (config_objects s) with
                   | Some o => spec_CheckAccess_Read o caller false
                   | None => false
                   end)
         (import_order cs).

(** The operations the specification calls mutating, other than Seal and
    Remove. *)
Definition mutating_method (method_name : string) : bool :=
  (("SetOption" =? method_name) || ("AccessGrant" =? method_name)
   || ("AccessRevoke" =? method_name))%string.

(** ** Calls used in the examples below *)

Definition path_a : string := "/net/openvpn/v3/configuration/x1a2b3c4d".
Definition path_b : string := "/net/openvpn/v3/configuration/x9f8e7d6c".

Definition import_call (cfgpath : string) (creator : uid_t) (cfgname cfgstr : string)
    (single persist : bool) : call :=
  ManagerCall creator "Import" (GVimport cfgname cfgstr single persist)
              {| generated_path := cfgpath; clock := 1500000000%Z;
                 uninitialised_bool := false |}.

Definition sample_config : string := "remote vpn.example.net 1194".

Definition oversized_config : string :=
  "remote vpn.example.net 1194 # 0123456789 0123456789 0123456789 0123456789".

(** Subject 1000 imports "work" (path_b) and then "home" (path_a). *)
Definition two_imports : list call :=
  [ import_call path_b 1000 "work" sample_config false false;
    import_call path_a 1000 "home" sample_config false false ].

(** Subject 1000 imports "work", grants access to 2000 and locks the
    profile down. *)
Definition locked_down_shared : list call :=
  [ import_call path_b 1000 "work" sample_config false false;
    ObjectCall path_b 1000 "AccessGrant" (GVuint32 2000) 1500000001%Z;
    PropertySet path_b 1000 "locked_down" (GVboolean true) ].

(** Subject 1000 imports "work" and "home" and gives each an alias. *)
Definition two_aliases : list call :=
  two_imports ++
  [ PropertySet path_b 1000 "alias" (GVstring "work");
    PropertySet path_a 1000 "alias" (GVstring "home") ].

(** Subject 1000 imports "work" and seals it. *)
Definition sealed_work : list call :=
  [ import_call path_b 1000 "work" sample_config false false;
    ObjectCall path_b 1000 "Seal" GVnull 1500000001%Z ].

(** Subject 1000 imports "work", seals it and removes it. *)
Definition removed_work : list call :=
  sealed_work ++ [ ObjectCall path_b 1000 "Remove" GVnull 1500000002%Z ].


(** A profile of subject 1000 that the backend has fetched 2^32 - 1
    times. *)
Definition worn_profile (opts : OptionListJSON) : ConfigurationObject :=
  {| creds := DBusCredentials.init 1000;
     name := "work";
     import_tstamp := 1500000000%Z;
     last_use_tstamp := 1500000001%Z;
     used_count := 4294967295;
     valid := true;
     readonly := false;
     single_use := false;
     persistent := false;
     locked_down := false;
     persist_tun := false;
     alias := None;
     options := opts |}.

(** ** ConfigurationAlias *)

(** [ConfigurationAlias::callback_get_property] of the alias object that
    points at [cfgpath]: the path is handed out as a string. *)
Definition alias_callback_get_property (cfgpath property_name : string) : reply :=
  if ("config_path" =? property_name)%string then Return (GVstring cfgpath)
  else Error (Failed "Unknown property").

(** Modelled from the spec: the dispatch of a property read to the alias
    object exported under [aliasname] belongs to the bus transport; a name
    that is not exported resolves to nothing. *)
Definition alias_property_get (s : Service) (aliasname property_name : string)
  : reply :=
  match StdMap.find aliasname (alias_objects s) with
  | Some cfgpath => alias_callback_get_property cfgpath property_name
  | None => Error UnknownObject
  end.

(** The properties [callback_set_property] has a branch for. *)
Definition writable_property (property_name : string) : bool :=
  (("alias" =? property_name) || ("name" =? property_name)
   || ("locked_down" =? property_name) || ("public_access" =? property_name)
   || ("persist_tun" =? property_name))%string.

(** What the constructor takes from the Import call: the creator, the two
    flags of the "(ssbb)" tuple, the time of the import and the parsed
    profile. *)
Definition import_data (o : ConfigurationObject)
  : uid_t * bool * bool * time_t * OptionListJSON :=
  (DBusCredentials.owner (creds o), single_use o, persistent o,
   import_tstamp o, options o).

(** A series of Fetch calls by root on one profile, one for each reading
    of the clock. *)
Definition root_fetches (obj_path : string) (times : list time_t) : list call :=
  map (fun now => ObjectCall obj_path DBusCredentials.root "Fetch" GVnull now)
      times.

(** Subject 1000 imports "work" and "home", gives each an alias and removes
    "work". *)
Definition aliased_then_removed : list call :=
  two_aliases ++ [ ObjectCall path_b 1000 "Remove" GVnull 1500000002%Z ].

(** ** Facts about std::map *)

Section MapFacts.
Context {V : Type}.
Implicit Types (m : StdMap.t V) (k : string) (v : V).

Lemma find_erase_same k m : StdMap.find k (StdMap.erase k m) = None.
Proof.
  induction m as [|[k' v'] m IH]; simpl; [reflexivity|].
  destruct (String.eqb k k') eqn:E; simpl; [exact IH|].
  now rewrite E.
Qed.

Lemma find_erase_other k k' m :
  k <> k' -> StdMap.find k (StdMap.erase k' m) = StdMap.find k m.
Proof.
  intros Hne. induction m as [|[k1 v1] m IH]; simpl; [reflexivity|].
  destruct (String.eqb k' k1) eqn:E; simpl.
  - apply String.eqb_eq in E; subst k1.
    apply String.eqb_neq in Hne. now rewrite Hne.
  - now rewrite IH.
Qed.

Lemma find_erase_none k k' m :
  StdMap.find k m = None -> StdMap.find k (StdMap.erase k' m) = None.
Proof.
  intros H. destruct (String.eqb_spec k k') as [->|Hne].
  - apply find_erase_same.
  - now rewrite find_erase_other.
Qed.

Lemma update_unchanged k v m :
  StdMap.find k m = Some v -> StdMap.update k v m = m.
Proof.
  induction m as [|[k' v'] m IH]; simpl; [reflexivity|].
  destruct (String.eqb k k') eqn:E; intros H.
  - now inversion H.
  - now rewrite IH.
Qed.

Lemma keys_update k v m : StdMap.keys (StdMap.update k v m) = StdMap.keys m.
Proof.
  induction m as [|[k' v'] m IH]; simpl; [reflexivity|].
  destruct (String.eqb k k'); simpl; [reflexivity|].
  f_equal. exact IH.
Qed.

Lemma find_update k k' v m :
  StdMap.find k (StdMap.update k' v m) =
  match StdMap.find k m with
  | Some v0 => Some (if String.eqb k k' then v else v0)
  | None => None
  end.
Proof.
  induction m as [|[k1 v1] m IH]; simpl; [reflexivity|].
  destruct (String.eqb k' k1) eqn:E1; simpl.
  - apply String.eqb_eq in E1; subst k1.
    destruct (String.eqb k k') eqn:E; [reflexivity|].
    now destruct (StdMap.find k m).
  - destruct (String.eqb k k1) eqn:E; [|exact IH].
    apply String.eqb_eq in E; subst k1.
    now rewrite String.eqb_sym, E1.
Qed.

Lemma find_update_none k k' v m :
  StdMap.find k m = None -> StdMap.find k (StdMap.update k' v m) = None.
Proof. intros H. now rewrite find_update, H. Qed.

Lemma find_assign_same k v m : StdMap.find k (StdMap.assign k v m) = Some v.
Proof.
  induction m as [|[k' v'] m IH]; simpl.
  - now rewrite String.eqb_refl.
  - destruct (String.compare k k') eqn:C; simpl.
    + now rewrite String.eqb_refl.
    + now rewrite String.eqb_refl.
    + destruct (String.eqb_spec k k') as [->|_]; [|exact IH].
      assert (H : String.compare k' k' = Eq)
        by (apply String_as_OT.cmp_eq; reflexivity).
      unfold String_as_OT.cmp in H. congruence.
Qed.

Lemma find_assign_other k k' v m :
  k <> k' -> StdMap.find k (StdMap.assign k' v m) = StdMap.find k m.
Proof.
  intros Hne. apply String.eqb_neq in Hne.
  induction m as [|[k1 v1] m IH]; simpl.
  - now rewrite Hne.
  - destruct (String.compare k' k1) eqn:C; simpl.
    + apply String.compare_eq_iff in C; subst k1. now rewrite Hne.
    + now rewrite Hne.
    + now rewrite IH.
Qed.

Lemma find_In_keys k v m : StdMap.find k m = Some v -> In k (StdMap.keys m).
Proof.
  induction m as [|[k' v'] m IH]; simpl; [discriminate|].
  destruct (String.eqb_spec k k') as [->|_]; auto.
Qed.

Lemma find_None_keys k m : StdMap.find k m = None -> ~ In k (StdMap.keys m).
Proof.
  induction m as [|[k' v'] m IH]; simpl; [tauto|].
  destruct (String.eqb_spec k k') as [->|Hne]; [discriminate|].
  intros H [E|HIn]; [congruence|]. now apply IH.
Qed.

Lemma keys_filter_incl (f : string * V -> bool) k m :
  In k (StdMap.keys (filter f m)) -> In k (StdMap.keys m).
Proof.
  unfold StdMap.keys. rewrite !in_map_iff.
  intros [x [Hx HIn]]. apply filter_In in HIn. exists x. tauto.
Qed.
End MapFacts.

(** *** Ascending key order *)

Definition key_lt (a b : string) : Prop := String.compare a b = Lt.

Lemma key_lt_trans a b c : key_lt a b -> key_lt b c -> key_lt a c.
Proof.
  unfold key_lt. intros Hab Hbc.
  apply (proj2 (String_as_OT.cmp_lt a c)).
  apply String_as_OT.lt_trans with b; now apply String_as_OT.cmp_lt.
Qed.

Lemma key_lt_irrefl a : ~ key_lt a a.
Proof.
  unfold key_lt. intros H.
  assert (E : String.compare a a = Eq)
    by (apply (proj2 (String_as_OT.cmp_eq a a)); reflexivity).
  congruence.
Qed.

Lemma key_gt_lt a b : String.compare a b = Gt -> key_lt b a.
Proof.
  unfold key_lt. intros H. rewrite String.compare_antisym, H. reflexivity.
Qed.

Section OrderFacts.
Context {V : Type}.
Implicit Types (m : StdMap.t V) (k : string) (v : V).

Lemma keys_assign_In x k v m :
  In x (StdMap.keys (StdMap.assign k v m)) -> x = k \/ In x (StdMap.keys m).
Proof.
  induction m as [|[k' v'] m IH]; simpl.
  - intros [H|[]]; auto.
  - destruct (String.compare k k') eqn:C; simpl.
    + apply String.compare_eq_iff in C; subst k'. intuition auto.
    + intuition auto.
    + intros [H|H]; [auto|]. apply IH in H. tauto.
Qed.

Lemma ascending_assign k v m :
  StdMap.ascending m -> StdMap.ascending (StdMap.assign k v m).
Proof.
  unfold StdMap.ascending.
  induction m as [|[k' v'] m IH]; simpl; intros Hs.
  - constructor; constructor.
  - apply StronglySorted_inv in Hs. destruct Hs as [Hs Hall].
    destruct (String.compare k k') eqn:C; simpl.
    + apply String.compare_eq_iff in C; subst k'. now constructor.
    + constructor.
      * now constructor.
      * constructor; [exact C|].
        eapply Forall_impl; [|exact Hall].
        intros x Hx. now apply key_lt_trans with k'.
    + constructor; [now apply IH|].
      apply Forall_forall. intros x Hx.
      apply keys_assign_In in Hx. destruct Hx as [->|Hx].
      * now apply key_gt_lt.
      * rewrite Forall_forall in Hall. now apply Hall.
Qed.

Lemma ascending_filter (f : string * V -> bool) m :
  StdMap.ascending m -> StdMap.ascending (filter f m).
Proof.
  unfold StdMap.ascending.
  induction m as [|[k' v'] m IH]; simpl; intros Hs; [constructor|].
  apply StronglySorted_inv in Hs. destruct Hs as [Hs Hall].
  destruct (f (k', v')); simpl; [|now apply IH].
  constructor; [now apply IH|].
  apply Forall_forall. intros x Hx. apply keys_filter_incl in Hx.
  rewrite Forall_forall in Hall. now apply Hall.
Qed.

Lemma ascending_erase k m :
  StdMap.ascending m -> StdMap.ascending (StdMap.erase k m).
Proof. apply ascending_filter. Qed.

Lemma ascending_update k v m :
  StdMap.ascending m -> StdMap.ascending (StdMap.update k v m).
Proof. unfold StdMap.ascending. now rewrite keys_update. Qed.

(** With ascending keys an entry is found under its key. *)
Lemma ascending_In_find k v m :
  StdMap.ascending m -> In (k, v) m -> StdMap.find k m = Some v.
Proof.
  unfold StdMap.ascending.
  induction m as [|[k' v'] m IH]; simpl; intros Hs HIn; [contradiction|].
  apply StronglySorted_inv in Hs. destruct Hs as [Hs Hall].
  destruct HIn as [E|HIn].
  - inversion E; subst. now rewrite String.eqb_refl.
  - destruct (String.eqb_spec k k') as [->|_]; [|now apply IH].
    exfalso. rewrite Forall_forall in Hall.
    apply (key_lt_irrefl k'). apply Hall.
    apply in_map_iff. now exists (k', v).
Qed.

Lemma find_In k v m : StdMap.find k m = Some v -> In (k, v) m.
Proof.
  induction m as [|[k' v'] m IH]; simpl; [discriminate|].
  destruct (String.eqb_spec k k') as [->|_]; intros H.
  - inversion H. now left.
  - right. now apply IH.
Qed.

Lemma Forall_update (Q : V -> Prop) k v m :
  Forall (fun item => Q (snd item)) m -> Q v ->
  Forall (fun item => Q (snd item)) (StdMap.update k v m).
Proof.
  intros Hall Hv. induction Hall as [|[k' v'] m Hx Hall IH]; simpl.
  - constructor.
  - destruct (String.eqb k k'); constructor; auto.
Qed.

Lemma Forall_assign (Q : V -> Prop) k v m :
  Forall (fun item => Q (snd item)) m -> Q v ->
  Forall (fun item => Q (snd item)) (StdMap.assign k v m).
Proof.
  intros Hall Hv. induction Hall as [|[k' v'] m Hx Hall IH]; simpl.
  - constructor; auto.
  - destruct (String.compare k k'); constructor; auto.
Qed.

Lemma Forall_erase (Q : V -> Prop) k m :
  Forall (fun item => Q (snd item)) m ->
  Forall (fun item => Q (snd item)) (StdMap.erase k m).
Proof.
  intros Hall. apply Forall_forall. intros x Hx.
  apply filter_In in Hx. rewrite Forall_forall in Hall. now apply Hall.
Qed.
End OrderFacts.

(** ** Facts about the callbacks *)

Ltac case_ifs :=
  repeat match goal with
    | |- context [if ?b then _ else _] => destruct b eqn:?
    | |- context [match ?p with GVnull => _ | _ => _ end] => destruct p
    end.

Lemma existsb_eqb_In (x : N) (l : list N) :
  existsb (N.eqb x) l = true <-> In x l.
Proof.
  rewrite existsb_exists. split.
  - intros [y [HIn E]]. apply N.eqb_eq in E. now subst.
  - intros HIn. exists x. split; [exact HIn|apply N.eqb_refl].
Qed.

Lemma GrantAccess_owner c uid :
  DBusCredentials.owner (DBusCredentials.GrantAccess c uid) = DBusCredentials.owner c.
Proof. unfold DBusCredentials.GrantAccess. now destruct (existsb _ _). Qed.

(** A method call that leaves the object alive keeps what is fixed at
    import, keeps the alias, and never clears [readonly]. *)
Lemma method_call_keeps o sender method_name params now r o' :
  callback_method_call o sender method_name params now = (r, Alive o') ->
  valid o' = valid o /\ alias o' = alias o /\ single_use o' = single_use o
  /\ DBusCredentials.owner (creds o') = DBusCredentials.owner (creds o)
  /\ (readonly o = true -> readonly o' = true).
Proof.
  unfold callback_method_call. case_ifs; intros H; inversion H; subst; simpl;
    rewrite ?GrantAccess_owner; repeat split; auto; intros; congruence.
Qed.

Lemma set_property_keeps s p o sender property_name value r o' al :
  callback_set_property s p o sender property_name value = (r, o', al) ->
  valid o' = valid o /\ single_use o' = single_use o
  /\ readonly o' = readonly o
  /\ DBusCredentials.owner (creds o') = DBusCredentials.owner (creds o).
Proof.
  unfold callback_set_property. case_ifs; intros H; inversion H; subst; simpl;
    auto.
Qed.

(** The exported aliases after a property write, before this object's
    new alias is added. *)
Definition detach_alias (s : Service) (o : ConfigurationObject) : StdMap.t string :=
  match alias o with
  | Some old => StdMap.erase old (alias_objects s)
  | None => alias_objects s
  end.

Lemma set_property_alias s p o sender property_name value r o' al :
  callback_set_property s p o sender property_name value = (r, o', al) ->
  (alias o' = alias o /\ al = alias_objects s)
  \/ (alias o' = None /\ al = detach_alias s o)
  \/ (exists a, alias o' = Some a
                /\ al = StdMap.assign a p (detach_alias s o)
                /\ registered (config_objects s) (detach_alias s o) (alias_path a)
                   = false).
Proof.
  unfold callback_set_property, detach_alias, RegisterObject.
  case_ifs; intros H; inversion H; subst; simpl; auto.
  right; right. eexists. repeat split.
  now apply negb_true_iff.
Qed.

(** ** Invariants of the service *)

Definition all_valid (s : Service) : Prop :=
  Forall (fun item => valid (snd item) = true) (config_objects s).

Definition alias_consistent (s : Service) : Prop :=
  forall p o a,
    StdMap.find p (config_objects s) = Some o -> alias o = Some a ->
    StdMap.find a (alias_objects s) = Some p.

Record well_formed (s : Service) : Prop := {
  wf_ascending : StdMap.ascending (config_objects s);
  wf_valid : all_valid s;
  wf_alias : alias_consistent s
}.

Lemma well_formed_no_objects : well_formed no_objects.
Proof.
  split.
  - constructor.
  - constructor.
  - intros p o a H. discriminate.
Qed.

Lemma find_valid s p o :
  all_valid s -> StdMap.find p (config_objects s) = Some o -> valid o = true.
Proof.
  unfold all_valid. intros Hall H. apply find_In in H.
  rewrite Forall_forall in Hall. now apply (Hall (p, o)).
Qed.

Lemma registered_false_find objs aliases p :
  registered objs aliases p = false -> StdMap.find p objs = None.
Proof. unfold registered. now destruct (StdMap.find p objs). Qed.

Lemma registered_alias objs aliases a q :
  StdMap.find a aliases = Some q -> registered objs aliases (alias_path a) = true.
Proof.
  intros H. unfold registered.
  destruct (StdMap.find (alias_path a) objs); [reflexivity|].
  apply existsb_exists. exists a. split.
  - now apply find_In_keys with q.
  - apply String.eqb_refl.
Qed.

Lemma step_ascending s c :
  StdMap.ascending (config_objects s) ->
  StdMap.ascending (config_objects (snd (step s c))).
Proof.
  intros Hs. destruct c as [sender m params env|p sender m params now
                           |p sender prop|p sender prop value]; simpl.
  - unfold manager_method_call.
    destruct ("Import" =? m)%string.
    + destruct params; simpl; auto.
      destruct (new_ConfigurationObject _ _ _ _ _ _); simpl; auto.
      destruct (RegisterObject _ _ _); simpl; auto.
      now apply ascending_assign.
    + destruct ("FetchAvailableConfigs" =? m)%string; simpl; auto.
  - destruct (StdMap.find p (config_objects s)) as [o|]; simpl; auto.
    destruct (callback_method_call o sender m params now) as [r [o'|]]; simpl.
    + now apply ascending_update.
    + now apply ascending_erase.
  - destruct (StdMap.find p (config_objects s)); simpl; auto.
  - destruct (StdMap.find p (config_objects s)) as [o|]; simpl; auto.
    destruct (callback_set_property s p o sender prop value) as [[r o'] al].
    simpl. now apply ascending_update.
Qed.

Lemma step_all_valid s c : all_valid s -> all_valid (snd (step s c)).
Proof.
  unfold all_valid.
  intros Hs. destruct c as [sender m params env|p sender m params now
                           |p sender prop|p sender prop value]; simpl.
  - unfold manager_method_call.
    destruct ("Import" =? m)%string.
    + destruct params; simpl; auto.
      unfold new_ConfigurationObject.
      destruct (parse_from_config config_str); simpl; auto.
      destruct (RegisterObject _ _ _); simpl; auto.
      now apply (Forall_assign (fun v => valid v = true)).
    + destruct ("FetchAvailableConfigs" =? m)%string; simpl; auto.
  - destruct (StdMap.find p (config_objects s)) as [o|] eqn:Hf; simpl; auto.
    destruct (callback_method_call o sender m params now) as [r [o'|]] eqn:Hc;
      simpl.
    + apply (Forall_update (fun v => valid v = true)); [exact Hs|].
      apply method_call_keeps in Hc. destruct Hc as [-> _].
      now apply find_valid with s p.
    + now apply (Forall_erase (fun v => valid v = true)).
  - destruct (StdMap.find p (config_objects s)); simpl; auto.
  - destruct (StdMap.find p (config_objects s)) as [o|] eqn:Hf; simpl; auto.
    destruct (callback_set_property s p o sender prop value) as [[r o'] al] eqn:Hc.
    simpl. apply (Forall_update (fun v => valid v = true)); [exact Hs|].
    apply set_property_keeps in Hc. destruct Hc as [-> _].
    now apply find_valid with s p.
Qed.

Lemma step_alias_consistent s c :
  alias_consistent s -> alias_consistent (snd (step s c)).
Proof.
  unfold alias_consistent.
  intros Hs. destruct c as [sender m params env|p sender m params now
                           |p sender prop|p sender prop value]; simpl.
  - unfold manager_method_call.
    destruct ("Import" =? m)%string.
    + destruct params; simpl; auto.
      unfold new_ConfigurationObject.
      destruct (parse_from_config config_str); simpl; auto.
      unfold RegisterObject.
      destruct (registered _ _ _) eqn:Hr; simpl; auto.
      intros p1 o1 a1 Hf Ha.
      destruct (String.eqb_spec p1 (generated_path env)) as [->|Hne].
      * rewrite find_assign_same in Hf. inversion Hf; subst. discriminate.
      * rewrite find_assign_other in Hf by exact Hne. eauto.
    + destruct ("FetchAvailableConfigs" =? m)%string; simpl; auto.
  - destruct (StdMap.find p (config_objects s)) as [o|] eqn:Hf; simpl; auto.
    destruct (callback_method_call o sender m params now) as [r [o'|]] eqn:Hc;
      simpl; intros p1 o1 a1 Hf1 Ha.
    + rewrite find_update in Hf1.
      destruct (StdMap.find p1 (config_objects s)) as [v0|] eqn:Hf0;
        [|discriminate].
      destruct (String.eqb_spec p1 p) as [->|Hne]; inversion Hf1; subst.
      * apply method_call_keeps in Hc. destruct Hc as [_ [Hal _]].
        apply Hs with o; congruence.
      * now apply Hs with o1.
    + destruct (String.eqb_spec p1 p) as [->|Hne].
      * now rewrite find_erase_same in Hf1.
      * rewrite find_erase_other in Hf1 by exact Hne. now apply Hs with o1.
  - destruct (StdMap.find p (config_objects s)); simpl; auto.
  - destruct (StdMap.find p (config_objects s)) as [o|] eqn:Hf; simpl; auto.
    destruct (callback_set_property s p o sender prop value) as [[r o'] al] eqn:Hc.
    simpl. intros p1 o1 a1 Hf1 Ha.
    rewrite find_update in Hf1.
    destruct (StdMap.find p1 (config_objects s)) as [v0|] eqn:Hf0; [|discriminate].
    apply set_property_alias in Hc.
    assert (Hdetach : p1 <> p -> alias v0 = Some a1 ->
                      StdMap.find a1 (detach_alias s o) = Some p1).
    { intros Hne Hv0. unfold detach_alias.
      destruct (alias o) as [old|] eqn:Hold; [|now apply Hs with v0].
      rewrite find_erase_other; [now apply Hs with v0|].
      intros ->. apply Hne.
      assert (E1 := Hs _ _ _ Hf0 Hv0). assert (E2 := Hs _ _ _ Hf Hold).
      congruence. }
    destruct (String.eqb_spec p1 p) as [->|Hne]; inversion Hf1; subst.
    + destruct Hc as [[Hal ->]|[[Hal ->]|[a [Hal [-> Hr]]]]].
      * apply Hs with o; congruence.
      * congruence.
      * rewrite Hal in Ha. inversion Ha; subst. apply find_assign_same.
    + destruct Hc as [[Hal ->]|[[Hal ->]|[a [Hal [-> Hr]]]]].
      * now apply Hs with o1.
      * now apply Hdetach.
      * rewrite find_assign_other; [now apply Hdetach|].
        intros ->.
        rewrite (registered_alias (config_objects s) _ a p1) in Hr;
          [discriminate|now apply Hdetach].
Qed.

Lemma step_well_formed s c : well_formed s -> well_formed (snd (step s c)).
Proof.
  intros [H1 H2 H3]. split;
    [now apply step_ascending|now apply step_all_valid
    |now apply step_alias_consistent].
Qed.

Lemma run_app s cs1 cs2 : run s (cs1 ++ cs2) = run (run s cs1) cs2.
Proof. unfold run. apply fold_left_app. Qed.

Lemma run_well_formed s cs : well_formed s -> well_formed (run s cs).
Proof.
  revert s. induction cs as [|c cs IH]; simpl; intros s Hs; [exact Hs|].
  apply IH. now apply step_well_formed.
Qed.

(** A path that carries no object stays empty unless an Import call
    receives that very path from the generator. *)
Lemma step_absent s c p :
  StdMap.find p (config_objects s) = None -> generated c <> Some p ->
  StdMap.find p (config_objects (snd (step s c))) = None.
Proof.
  intros Hf Hg. destruct c as [sender m params env|q sender m params now
                              |q sender prop|q sender prop value]; simpl.
  - unfold manager_method_call. unfold generated in Hg.
    destruct ("Import" =? m)%string.
    + destruct params; simpl; auto.
      destruct (new_ConfigurationObject _ _ _ _ _ _); simpl; auto.
      destruct (RegisterObject _ _ _); simpl; auto.
      rewrite find_assign_other; [exact Hf|]. congruence.
    + destruct ("FetchAvailableConfigs" =? m)%string; simpl; auto.
  - destruct (StdMap.find q (config_objects s)) as [o|]; simpl; auto.
    destruct (callback_method_call o sender m params now) as [r [o'|]]; simpl.
    + now apply find_update_none.
    + now apply find_erase_none.
  - destruct (StdMap.find q (config_objects s)); simpl; auto.
  - destruct (StdMap.find q (config_objects s)) as [o|]; simpl; auto.
    destruct (callback_set_property s q o sender prop value) as [[r o'] al].
    simpl. now apply find_update_none.
Qed.

Lemma run_absent s cs p :
  StdMap.find p (config_objects s) = None ->
  ~ In (Some p) (map generated cs) ->
  StdMap.find p (config_objects (run s cs)) = None.
Proof.
  revert s. induction cs as [|c cs IH]; simpl; intros s Hf Hg; [exact Hf|].
  apply IH; [|tauto]. apply step_absent; [exact Hf|]. intros E. apply Hg. now left.
Qed.

(** A sealed object stays sealed for as long as it exists. *)
Lemma step_sealed s c p o :
  StdMap.find p (config_objects s) = Some o -> readonly o = true ->
  match StdMap.find p (config_objects (snd (step s c))) with
  | Some o' => readonly o' = true
  | None => True
  end.
Proof.
  intros Hf Hro. destruct c as [sender m params env|q sender m params now
                               |q sender prop|q sender prop value]; simpl.
  - unfold manager_method_call.
    destruct ("Import" =? m)%string.
    + destruct params; simpl; rewrite ?Hf; auto.
      destruct (new_ConfigurationObject _ _ _ _ _ _); simpl; rewrite ?Hf; auto.
      unfold RegisterObject.
      destruct (registered _ _ _) eqn:Hr; simpl; rewrite ?Hf; auto.
      apply registered_false_find in Hr.
      rewrite find_assign_other; [now rewrite Hf|congruence].
    + destruct ("FetchAvailableConfigs" =? m)%string; simpl; now rewrite Hf.
  - destruct (StdMap.find q (config_objects s)) as [oq|] eqn:Hq; simpl;
      [|now rewrite Hf].
    destruct (callback_method_call oq sender m params now) as [r [o'|]] eqn:Hc;
      simpl.
    + rewrite find_update, Hf.
      destruct (String.eqb_spec p q) as [->|_]; [|exact Hro].
      apply method_call_keeps in Hc. apply Hc. congruence.
    + destruct (StdMap.find p (StdMap.erase q (config_objects s))) eqn:He; auto.
      destruct (String.eqb_spec p q) as [->|Hne].
      * now rewrite find_erase_same in He.
      * rewrite find_erase_other in He by exact Hne. congruence.
  - destruct (StdMap.find q (config_objects s)); simpl; now rewrite Hf.
  - destruct (StdMap.find q (config_objects s)) as [oq|] eqn:Hq; simpl;
      [|now rewrite Hf].
    destruct (callback_set_property s q oq sender prop value) as [[r o'] al] eqn:Hc.
    simpl. rewrite find_update, Hf.
    destruct (String.eqb_spec p q) as [->|_]; [|exact Hro].
    apply set_property_keeps in Hc. destruct Hc as [_ [_ [-> _]]]. congruence.
Qed.

Lemma run_sealed s cs p o :
  StdMap.find p (config_objects s) = Some o -> readonly o = true ->
  ~ In (Some p) (map generated cs) ->
  match StdMap.find p (config_objects (run s cs)) with
  | Some o' => readonly o' = true
  | None => True
  end.
Proof.
  revert s o. induction cs as [|c cs IH]; simpl; intros s o Hf Hro Hg.
  - now rewrite Hf.
  - assert (H := step_sealed s c p o Hf Hro).
    destruct (StdMap.find p (config_objects (snd (step s c)))) as [o1|] eqn:H1.
    + apply IH with o1; tauto.
    + rewrite run_absent; [exact I|exact H1|tauto].
Qed.

Lemma CheckACL_true_iff c sender :
  DBusCredentials.CheckACL c sender false = true
  <-> sender = DBusCredentials.owner c
      \/ In sender (DBusCredentials.acl_list c)
      \/ DBusCredentials.acl_public c = true.
Proof.
  unfold DBusCredentials.CheckACL. simpl.
  destruct (N.eqb_spec sender (DBusCredentials.owner c)) as [E|E];
    [tauto|].
  destruct (existsb (N.eqb sender) (DBusCredentials.acl_list c)) eqn:Hx.
  - apply existsb_eqb_In in Hx. tauto.
  - assert (~ In sender (DBusCredentials.acl_list c)).
    { intros HIn. apply existsb_eqb_In in HIn. congruence. }
    tauto.
Qed.

Lemma service_eta s :
  {| config_objects := config_objects s; alias_objects := alias_objects s |} = s.
Proof. now destruct s. Qed.

(** ** The claims *)

(** C1. On a locked-down profile, Fetch returns the exported text exactly
    when the caller is the owner or root and is refused with an access
    error for every other caller, whatever the access list and the
    public flag hold; FetchJSON returns the export exactly when the
    caller is the owner, and is refused for everyone else, root
    included. *)
Theorem fetch_locked_down_access o sender params now :
  locked_down o = true ->
  (fst (callback_method_call o sender "Fetch" params now)
     = Return (GVstring (string_export (options o)))
   <-> sender = DBusCredentials.owner (creds o) \/ sender = DBusCredentials.root)
  /\ (fst (callback_method_call o sender "Fetch" params now) = Error AccessDenied
      <-> sender <> DBusCredentials.owner (creds o)
          /\ sender <> DBusCredentials.root)
  /\ (fst (callback_method_call o sender "FetchJSON" params now)
        = Return (GVstring (json_export (options o)))
      <-> sender = DBusCredentials.owner (creds o))
  /\ (fst (callback_method_call o sender "FetchJSON" params now) = Error AccessDenied
      <-> sender <> DBusCredentials.owner (creds o)).
Proof.
  intros Hl. unfold callback_method_call.
  cbn [String.eqb Ascii.eqb Bool.eqb]. rewrite Hl. cbn [negb].
  unfold DBusCredentials.CheckOwnerAccess, DBusCredentials.root.
  cbn [andb].
  destruct (N.eqb_spec sender (DBusCredentials.owner (creds o))) as [E|E];
    destruct (N.eqb_spec sender 0) as [E0|E0];
    destruct (single_use o); cbn [orb fst];
    repeat split; intros; try discriminate; try tauto;
    try (exfalso; tauto).
Qed.

(** C10. Reading the owner property returns the owner's uid for every
    caller and every profile; no access check stands in front of it. *)
Theorem owner_property_unrestricted o sender :
  callback_get_property o sender "owner"
  = Return (GVuint32 (DBusCredentials.owner (creds o))).
Proof. reflexivity. Qed.

(** C9. When the parser refuses the profile text, Import ends with the
    parser's error, hands out no object path, and leaves the service as
    it was: the generated path carries no object and appears in no
    caller's list. *)
Theorem import_rejected s sender cfgname cfgstr single persist env msg :
  parse_from_config cfgstr = inl msg ->
  StdMap.find (generated_path env) (config_objects s) = None ->
  let r := step s (ManagerCall sender "Import"
                     (GVimport cfgname cfgstr single persist) env) in
  fst r = Error (ParseError msg)
  /\ snd r = s
  /\ StdMap.find (generated_path env) (config_objects (snd r)) = None
  /\ forall caller env',
       fst (step (snd r) (ManagerCall caller "FetchAvailableConfigs" GVnull env'))
         = Return (GVobject_path_array (available_configs s caller))
       /\ ~ In (generated_path env) (available_configs s caller).
Proof.
  intros Hp Hf r. subst r.
  cbn [step]. unfold manager_method_call, new_ConfigurationObject.
  cbn [String.eqb Ascii.eqb Bool.eqb]. rewrite Hp. cbn [fst snd].
  repeat split; auto.
  intros HIn. unfold available_configs in HIn.
  apply keys_filter_incl in HIn.
  now apply (find_None_keys _ _ Hf).
Qed.

(** C6, as the code has it.  A property read is refused with an access
    error exactly when the property is not owner and the caller is
    neither the owner, nor in the access list, nor covered by the public
    flag, nor root reading persist_tun.  The lock-down flag plays no
    part in the decision. *)
Theorem property_read_denied_iff o sender property_name :
  callback_get_property o sender property_name = Error AccessDenied
  <-> property_name <> "owner"
      /\ sender <> DBusCredentials.owner (creds o)
      /\ ~ (property_name = "persist_tun" /\ sender = DBusCredentials.root)
      /\ ~ In sender (DBusCredentials.acl_list (creds o))
      /\ DBusCredentials.acl_public (creds o) = false.
Proof.
  unfold callback_get_property.
  destruct (String.eqb_spec "owner" property_name) as [E|E].
  - split; [discriminate|]. intros [H _]. now elim H.
  - unfold DBusCredentials.CheckACL, DBusCredentials.root.
    destruct (N.eqb_spec sender (DBusCredentials.owner (creds o))) as [Eo|Eo].
    { split; [case_ifs; discriminate|tauto]. }
    destruct (String.eqb_spec "persist_tun" property_name) as [Ep|Ep];
      destruct (N.eqb_spec sender 0) as [E0|E0]; cbn [andb].
    { split; [case_ifs; discriminate|].
      intros [_ [_ [H _]]]. elim H. split; congruence. }
    all: destruct (existsb (N.eqb sender) (DBusCredentials.acl_list (creds o)))
           eqn:Hx;
      [ apply existsb_eqb_In in Hx; split; [case_ifs; discriminate|tauto]
      | assert (~ In sender (DBusCredentials.acl_list (creds o)))
          by (intros HIn; apply existsb_eqb_In in HIn; congruence);
        destruct (DBusCredentials.acl_public (creds o));
        [ split; [case_ifs; discriminate|intuition discriminate]
        | split; [intros _|reflexivity];
          repeat split; auto; intros [? ?]; congruence ] ].
Qed.

Lemma step_unknown_object s c p :
  StdMap.find p (config_objects s) = None -> target c = Some p ->
  step s c = (Error UnknownObject, s).
Proof.
  intros Hf Ht. destruct c; simpl in Ht; inversion Ht; subst; cbn [step];
    now rewrite Hf.
Qed.

Lemma root_passes_fetch o :
  (if negb (locked_down o)
   then DBusCredentials.CheckACL (creds o) DBusCredentials.root true
   else DBusCredentials.CheckOwnerAccess (creds o) DBusCredentials.root true)
  = true.
Proof.
  unfold DBusCredentials.CheckACL, DBusCredentials.CheckOwnerAccess,
    DBusCredentials.root.
  destruct (locked_down o); cbn [negb];
    destruct (0 =? DBusCredentials.owner (creds o)); reflexivity.
Qed.


Lemma mutating_method_cases method_name :
  mutating_method method_name = true ->
  method_name = "SetOption" \/ method_name = "AccessGrant"
  \/ method_name = "AccessRevoke".
Proof.
  unfold mutating_method. rewrite !orb_true_iff, !String.eqb_eq.
  intuition auto.
Qed.

(** C3, as the code has it.  On a sealed profile SetOption, AccessGrant,
    AccessRevoke and every property write are refused with the read-only
    error, whoever calls, and leave the service as it was.  Remove by the
    owner still succeeds; after it the path carries no object and every
    call addressed to it is answered with UnknownObject and changes
    nothing. *)
Theorem sealed_rejects_mutation s p o :
  StdMap.find p (config_objects s) = Some o -> readonly o = true ->
  (forall sender method_name params now,
      mutating_method method_name = true ->
      step s (ObjectCall p sender method_name params now) = (Error ReadOnly, s))
  /\ (forall sender property_name value,
      step s (PropertySet p sender property_name value) = (Error ReadOnly, s))
  /\ (forall params now,
      let r := step s (ObjectCall p (DBusCredentials.owner (creds o)) "Remove"
                         params now) in
      fst r = Return GVnull
      /\ snd r = remove_config_object p s
      /\ StdMap.find p (config_objects (snd r)) = None
      /\ forall c, target c = Some p ->
           step (snd r) c = (Error UnknownObject, snd r)).
Proof.
  intros Hf Hro. repeat split.
  - intros sender m params now Hm. cbn [step]. rewrite Hf.
    apply mutating_method_cases in Hm.
    destruct Hm as [->|[->| ->]]; unfold callback_method_call;
      cbn [String.eqb Ascii.eqb Bool.eqb]; rewrite Hro;
      rewrite (update_unchanged _ _ _ Hf); now rewrite service_eta.
  - intros sender prop value. cbn [step]. rewrite Hf.
    unfold callback_set_property. rewrite Hro.
    rewrite (update_unchanged _ _ _ Hf). now rewrite service_eta.
  - cbn [step]. rewrite Hf. unfold callback_method_call.
    cbn [String.eqb Ascii.eqb Bool.eqb].
    unfold DBusCredentials.CheckOwnerAccess. now rewrite N.eqb_refl.
  - cbn [step]. rewrite Hf. unfold callback_method_call.
    cbn [String.eqb Ascii.eqb Bool.eqb].
    unfold DBusCredentials.CheckOwnerAccess. now rewrite N.eqb_refl.
  - cbn [step]. rewrite Hf. unfold callback_method_call.
    cbn [String.eqb Ascii.eqb Bool.eqb].
    unfold DBusCredentials.CheckOwnerAccess. rewrite N.eqb_refl.
    apply find_erase_same.
  - intros c Ht. apply step_unknown_object with p; [|exact Ht].
    cbn [step]. rewrite Hf. unfold callback_method_call.
    cbn [String.eqb Ascii.eqb Bool.eqb].
    unfold DBusCredentials.CheckOwnerAccess. rewrite N.eqb_refl.
    apply find_erase_same.
Qed.

(** C4, as the code has it.  In every state the service reaches, Seal by
    the owner succeeds and leaves the profile sealed, whether it was
    sealed before or not, and Seal by anyone else is refused with an
    access error.  A sealed profile stays sealed until it is removed, and
    a removed path stays empty, as long as the path generator does not
    hand out the same path again. *)
Theorem seal_and_lifecycle cs p o :
  StdMap.find p (config_objects (reached cs)) = Some o ->
  (forall sender params now,
      step (reached cs) (ObjectCall p sender "Seal" params now)
      = if sender =? DBusCredentials.owner (creds o)
        then (Return GVnull,
              {| config_objects :=
                   StdMap.update p (set_readonly o true)
                                 (config_objects (reached cs));
                 alias_objects := alias_objects (reached cs) |})
        else (Error AccessDenied, reached cs))
  /\ (readonly o = true ->
      forall cs', ~ In (Some p) (map generated cs') ->
        match StdMap.find p (config_objects (run (reached cs) cs')) with
        | Some o' => readonly o' = true
        | None => True
        end)
  /\ (forall cs1 cs2,
        StdMap.find p (config_objects (run (reached cs) cs1)) = None ->
        ~ In (Some p) (map generated cs2) ->
        StdMap.find p (config_objects (run (run (reached cs) cs1) cs2)) = None).
Proof.
  intros Hf. repeat split.
  - intros sender params now. cbn [step]. rewrite Hf.
    unfold callback_method_call. cbn [String.eqb Ascii.eqb Bool.eqb].
    unfold DBusCredentials.CheckOwnerAccess. cbn [andb]. rewrite orb_false_r.
    destruct (sender =? DBusCredentials.owner (creds o)).
    + assert (Hv : valid o = true).
      { apply find_valid with (reached cs) p; [|exact Hf].
        apply wf_valid. apply run_well_formed, well_formed_no_objects. }
      now rewrite Hv.
    + rewrite (update_unchanged _ _ _ Hf). now rewrite service_eta.
  - intros Hro cs' Hg. now apply run_sealed with o.
  - intros cs1 cs2 Hn Hg. now apply run_absent.
Qed.

Lemma available_configs_In s sender p :
  StdMap.ascending (config_objects s) ->
  (In p (available_configs s sender)
   <-> exists o, StdMap.find p (config_objects s) = Some o
                 /\ DBusCredentials.CheckACL (creds o) sender false = true).
Proof.
  intros Hs. unfold available_configs, StdMap.keys.
  rewrite in_map_iff. split.
  - intros [[k o] [Hk HIn]]. simpl in Hk. subst k.
    apply filter_In in HIn. destruct HIn as [HIn Hacl].
    exists o. split; [now apply ascending_In_find|exact Hacl].
  - intros [o [Hf Hacl]]. exists (p, o). split; [reflexivity|].
    apply filter_In. split; [now apply find_In|exact Hacl].
Qed.

(** C5, as the code has it.  In every state the service reaches,
    FetchAvailableConfigs never fails and changes nothing; it returns the
    paths of exactly those profiles whose owner is the caller, whose
    access list holds the caller, or whose public flag is set (the
    lock-down flag is not consulted and root has no bypass), each once,
    in ascending order of the object paths. *)
Theorem list_available_configs cs sender params env :
  step (reached cs) (ManagerCall sender "FetchAvailableConfigs" params env)
  = (Return (GVobject_path_array (available_configs (reached cs) sender)),
     reached cs)
  /\ (forall p,
        In p (available_configs (reached cs) sender)
        <-> exists o,
              StdMap.find p (config_objects (reached cs)) = Some o
              /\ (sender = DBusCredentials.owner (creds o)
                  \/ In sender (DBusCredentials.acl_list (creds o))
                  \/ DBusCredentials.acl_public (creds o) = true))
  /\ StronglySorted key_lt (available_configs (reached cs) sender).
Proof.
  assert (Hwf : well_formed (reached cs))
    by apply run_well_formed, well_formed_no_objects.
  destruct Hwf as [Hasc _ _].
  split; [reflexivity|]. split.
  - intros p. rewrite available_configs_In by exact Hasc.
    split; intros [o [Hf H]]; exists o; split; auto;
      now apply CheckACL_true_iff.
  - unfold available_configs. now apply ascending_filter.
Qed.

(** C7, as the code has it.  In every state the service reaches, when the
    owner of an unsealed profile sets its alias to a name that is
    exported for a different profile, the call fails with the
    already-exists error, the other profiles and the entry of that name
    are untouched, and the profile's own previous alias is gone: the
    profile is left without an alias and its old name is no longer
    exported. *)
Theorem set_alias_conflict cs p q o aliasname :
  StdMap.find p (config_objects (reached cs)) = Some o ->
  readonly o = false ->
  StdMap.find aliasname (alias_objects (reached cs)) = Some q ->
  q <> p ->
  let r := step (reached cs)
             (PropertySet p (DBusCredentials.owner (creds o)) "alias"
                          (GVstring aliasname)) in
  (exists msg, fst r = Error (AliasExists msg))
  /\ StdMap.find p (config_objects (snd r)) = Some (set_alias o None)
  /\ (forall p', p' <> p ->
        StdMap.find p' (config_objects (snd r))
        = StdMap.find p' (config_objects (reached cs)))
  /\ alias_objects (snd r) = detach_alias (reached cs) o
  /\ StdMap.find aliasname (alias_objects (snd r)) = Some q
  /\ (forall old, alias o = Some old ->
        StdMap.find old (alias_objects (snd r)) = None).
Proof.
  intros Hf Hro Ha Hne r.
  assert (Hwf : well_formed (reached cs))
    by apply run_well_formed, well_formed_no_objects.
  assert (Hother : StdMap.find aliasname (detach_alias (reached cs) o) = Some q).
  { unfold detach_alias. destruct (alias o) as [old|] eqn:Hold; [|exact Ha].
    rewrite find_erase_other; [exact Ha|].
    intros ->. apply Hne.
    assert (E := wf_alias _ Hwf _ _ _ Hf Hold). congruence. }
  assert (Hr : r = (Error (AliasExists
                             (if negb (g_variant_is_object_path (alias_path aliasname))
                              then "Specified alias is invalid"
                              else "Object path is already registered")),
                    {| config_objects :=
                         StdMap.update p (set_alias o None)
                                       (config_objects (reached cs));
                       alias_objects := detach_alias (reached cs) o |})).
  { subst r. cbn [step]. rewrite Hf. unfold callback_set_property.
    rewrite Hro. unfold DBusCredentials.CheckOwnerAccess.
    rewrite N.eqb_refl. cbn [orb String.eqb Ascii.eqb Bool.eqb].
    fold (detach_alias (reached cs) o).
    destruct (negb (g_variant_is_object_path (alias_path aliasname)));
      [reflexivity|].
    unfold RegisterObject.
    now rewrite (registered_alias _ _ _ _ Hother). }
  rewrite Hr. cbn [fst snd config_objects alias_objects].
  split; [eexists; reflexivity|].
  split; [rewrite find_update, Hf; now rewrite String.eqb_refl|].
  split.
  { intros p' Hp'. rewrite find_update.
    destruct (StdMap.find p' (config_objects (reached cs))); [|reflexivity].
    apply String.eqb_neq in Hp'. now rewrite Hp'. }
  split; [reflexivity|]. split; [exact Hother|].
  intros old Hold. unfold detach_alias. rewrite Hold. apply find_erase_same.
Qed.

(** C8, as the code has it.  Fetch by root always returns the exported
    text; a profile that is not single-use stays in place with
    [used_count] raised by one modulo 2^32 (by exactly one below the
    largest unsigned value) and [last_use_tstamp] set to the time of the
    call, while a single-use profile is deleted and nothing is counted.
    Fetch by any other caller and FetchJSON by anyone leave the object as
    it is, and no other method call that leaves the object alive changes
    the counter or the time of last use. *)
Theorem used_count_accounting o sender method_name params now :
  callback_method_call o DBusCredentials.root "Fetch" params now
  = (Return (GVstring (string_export (options o))),
     if single_use o then Deleted
     else Alive (set_used o ((used_count o + 1) mod UINT_MODULUS) now))
  /\ used_count (set_used o ((used_count o + 1) mod UINT_MODULUS) now)
     = (used_count o + 1) mod UINT_MODULUS
  /\ last_use_tstamp (set_used o ((used_count o + 1) mod UINT_MODULUS) now) = now
  /\ (used_count o < UINT_MODULUS - 1 ->
      (used_count o + 1) mod UINT_MODULUS = used_count o + 1)
  /\ (sender <> DBusCredentials.root ->
      snd (callback_method_call o sender "Fetch" params now) = Alive o)
  /\ snd (callback_method_call o sender "FetchJSON" params now) = Alive o
  /\ (method_name <> "Fetch" ->
      forall o',
        snd (callback_method_call o sender method_name params now) = Alive o' ->
        used_count o' = used_count o
        /\ last_use_tstamp o' = last_use_tstamp o).
Proof.
  split; [|split; [reflexivity|split; [reflexivity|split; [|split; [|split]]]]].
  - unfold callback_method_call. cbn [String.eqb Ascii.eqb Bool.eqb].
    rewrite root_passes_fetch. unfold DBusCredentials.root. cbn [N.eqb].
    now destruct (single_use o).
  - intros Hlt. apply N.mod_small. unfold UINT_MODULUS in *. lia.
  - intros Hr. unfold callback_method_call. cbn [String.eqb Ascii.eqb Bool.eqb].
    apply N.eqb_neq in Hr. unfold DBusCredentials.root in Hr. rewrite Hr.
    now case_ifs.
  - unfold callback_method_call. cbn [String.eqb Ascii.eqb Bool.eqb].
    now case_ifs.
  - intros Hm o'. apply String.eqb_neq in Hm. rewrite String.eqb_sym in Hm.
    unfold callback_method_call. rewrite Hm.
    case_ifs; cbn [snd]; intros H; inversion H; subst; auto.
Qed.

(** ** Further properties of the callbacks *)

Lemma owner_check_non_owner c sender :
  sender <> DBusCredentials.owner c ->
  DBusCredentials.CheckOwnerAccess c sender false = false.
Proof.
  intros H. unfold DBusCredentials.CheckOwnerAccess.
  apply N.eqb_neq in H. now rewrite H.
Qed.

Lemma owner_check_owner c allow_root :
  DBusCredentials.CheckOwnerAccess c (DBusCredentials.owner c) allow_root = true.
Proof. unfold DBusCredentials.CheckOwnerAccess. now rewrite N.eqb_refl. Qed.

Lemma acl_check_owner c allow_root :
  DBusCredentials.CheckACL c (DBusCredentials.owner c) allow_root = true.
Proof. unfold DBusCredentials.CheckACL. now rewrite N.eqb_refl. Qed.

(** A method call other than Fetch by someone who is not the owner leaves
    the object as it is, and returns a value only if it is FetchJSON. *)
Lemma method_call_non_owner o sender method_name params now :
  sender <> DBusCredentials.owner (creds o) ->
  ("Fetch" =? method_name)%string = false ->
  snd (callback_method_call o sender method_name params now) = Alive o
  /\ (("FetchJSON" =? method_name)%string = false ->
      forall v, fst (callback_method_call o sender method_name params now)
                <> Return v).
Proof.
  intros Hne Hm. unfold callback_method_call. rewrite Hm.
  rewrite (owner_check_non_owner _ _ Hne).
  split; [now case_ifs|].
  intros Hj v. rewrite Hj. case_ifs; discriminate.
Qed.

(** What a method call that deletes the object must have been. *)
Lemma method_call_deleted o sender method_name params now r :
  callback_method_call o sender method_name params now = (r, Deleted) ->
  (method_name = "Remove" /\ sender = DBusCredentials.owner (creds o))
  \/ (method_name = "Fetch" /\ sender = DBusCredentials.root
      /\ single_use o = true).
Proof.
  unfold callback_method_call, DBusCredentials.root.
  destruct ("Fetch" =? method_name)%string eqn:Ef.
  - apply String.eqb_eq in Ef. subst method_name.
    destruct (N.eqb_spec sender 0) as [->|E0];
      destruct (single_use o); case_ifs; intros H; inversion H; auto.
  - destruct ("Remove" =? method_name)%string eqn:Er.
    + apply String.eqb_eq in Er. subst method_name.
      cbn [String.eqb Ascii.eqb Bool.eqb].
      unfold DBusCredentials.CheckOwnerAccess. cbn [andb]. rewrite orb_false_r.
      destruct (N.eqb_spec sender (DBusCredentials.owner (creds o)));
        intros H; inversion H; auto.
    + case_ifs; intros H; inversion H.
Qed.

Lemma step_object_same s p sender method_name params now :
  (forall o, StdMap.find p (config_objects s) = Some o ->
             snd (callback_method_call o sender method_name params now) = Alive o) ->
  snd (step s (ObjectCall p sender method_name params now)) = s.
Proof.
  intros H. cbn [step].
  destruct (StdMap.find p (config_objects s)) as [o|] eqn:Hf; [|reflexivity].
  specialize (H o eq_refl).
  destruct (callback_method_call o sender method_name params now) as [r l].
  cbn [snd] in H. subst l. cbn [snd].
  rewrite (update_unchanged _ _ _ Hf). apply service_eta.
Qed.

Lemma step_present s c p o :
  StdMap.find p (config_objects s) = Some o ->
  target c <> Some p ->
  exists o', StdMap.find p (config_objects (snd (step s c))) = Some o'.
Proof.
  intros Hf Ht. destruct c as [sender m params env|q sender m params now
                              |q sender prop|q sender prop value];
    cbn [step target] in *.
  - unfold manager_method_call.
    destruct ("Import" =? m)%string.
    + destruct params; cbn [snd]; eauto.
      destruct (new_ConfigurationObject _ _ _ _ _ _); cbn [snd]; eauto.
      unfold RegisterObject.
      destruct (registered _ _ _) eqn:Hr; cbn [negb snd config_objects]; eauto.
      apply registered_false_find in Hr.
      rewrite find_assign_other; [eauto|congruence].
    + destruct ("FetchAvailableConfigs" =? m)%string; cbn [snd]; eauto.
  - assert (Hne : p <> q) by congruence.
    destruct (StdMap.find q (config_objects s)) as [oq|]; cbn [snd]; eauto.
    destruct (callback_method_call oq sender m params now) as [r [o'|]];
      cbn [snd config_objects remove_config_object].
    + rewrite find_update, Hf. eauto.
    + rewrite find_erase_other by exact Hne. eauto.
  - destruct (StdMap.find q (config_objects s)); cbn [snd]; eauto.
  - destruct (StdMap.find q (config_objects s)) as [oq|]; cbn [snd]; eauto.
    destruct (callback_set_property s q oq sender prop value) as [[r o'] al].
    cbn [snd config_objects]. rewrite find_update, Hf. eauto.
Qed.

(** The test in front of Fetch ([allow_root] set) and FetchJSON. *)
Lemma fetch_check_iff o sender allow_root :
  (if negb (locked_down o)
   then DBusCredentials.CheckACL (creds o) sender allow_root
   else DBusCredentials.CheckOwnerAccess (creds o) sender allow_root) = true
  <-> sender = DBusCredentials.owner (creds o)
      \/ (allow_root = true /\ sender = DBusCredentials.root)
      \/ (locked_down o = false
          /\ (In sender (DBusCredentials.acl_list (creds o))
              \/ DBusCredentials.acl_public (creds o) = true)).
Proof.
  unfold DBusCredentials.CheckACL, DBusCredentials.CheckOwnerAccess,
    DBusCredentials.root.
  assert (Hb : (allow_root && (sender =? 0))%bool = true
               <-> allow_root = true /\ sender = 0)
    by (rewrite andb_true_iff, N.eqb_eq; tauto).
  assert (Hx := existsb_eqb_In sender (DBusCredentials.acl_list (creds o))).
  assert (Ho := N.eqb_eq sender (DBusCredentials.owner (creds o))).
  destruct (sender =? DBusCredentials.owner (creds o));
    destruct (allow_root && (sender =? 0))%bool;
    destruct (existsb (N.eqb sender) (DBusCredentials.acl_list (creds o)));
    destruct (locked_down o);
    destruct (DBusCredentials.acl_public (creds o));
    cbn [negb orb];
    intuition (try discriminate; try congruence).
Qed.

(** X3.  Who may fetch.  Fetch returns the exported text exactly for the
    owner, for root, and, when the profile is not locked down, for the
    subjects in the access list and for everybody if the public flag is
    set; FetchJSON returns the export to the same callers except that root
    has no bypass.  Every other caller gets the access error, and nobody
    else does. *)
Theorem fetch_access_iff o sender params now :
  (fst (callback_method_call o sender "Fetch" params now)
     = Return (GVstring (string_export (options o)))
   <-> sender = DBusCredentials.owner (creds o)
       \/ sender = DBusCredentials.root
       \/ (locked_down o = false
           /\ (In sender (DBusCredentials.acl_list (creds o))
               \/ DBusCredentials.acl_public (creds o) = true)))
  /\ (fst (callback_method_call o sender "Fetch" params now) = Error AccessDenied
      <-> ~ (sender = DBusCredentials.owner (creds o)
             \/ sender = DBusCredentials.root
             \/ (locked_down o = false
                 /\ (In sender (DBusCredentials.acl_list (creds o))
                     \/ DBusCredentials.acl_public (creds o) = true))))
  /\ (fst (callback_method_call o sender "FetchJSON" params now)
        = Return (GVstring (json_export (options o)))
      <-> sender = DBusCredentials.owner (creds o)
          \/ (locked_down o = false
              /\ (In sender (DBusCredentials.acl_list (creds o))
                  \/ DBusCredentials.acl_public (creds o) = true)))
  /\ (fst (callback_method_call o sender "FetchJSON" params now)
        = Error AccessDenied
      <-> ~ (sender = DBusCredentials.owner (creds o)
             \/ (locked_down o = false
                 /\ (In sender (DBusCredentials.acl_list (creds o))
                     \/ DBusCredentials.acl_public (creds o) = true)))).
Proof.
  pose proof (fetch_check_iff o sender true) as Ht.
  pose proof (fetch_check_iff o sender false) as Hf.
  unfold callback_method_call. cbn [String.eqb Ascii.eqb Bool.eqb].
  assert (Hft : forall b : bool,
             fst (if b
                  then
                    let r := Return (GVstring (string_export (options o))) in
                    if sender =? 0
                    then if single_use o then (r, Deleted)
                         else (r, Alive (set_used o (uint_incr (used_count o)) now))
                    else (r, Alive o)
                  else (Error AccessDenied, Alive o))
             = if b then Return (GVstring (string_export (options o)))
               else Error AccessDenied).
  { intros [|]; [now case_ifs|reflexivity]. }
  rewrite Hft. clear Hft.
  split; [|split; [|split]].
  - clear Hf. destruct (if negb (locked_down o) then _ else _).
    + split; [intros _|reflexivity].
      destruct (proj1 Ht eq_refl) as [?|[[_ ?]|?]]; tauto.
    + split; [discriminate|]. intros H.
      assert (false = true); [|discriminate]. apply Ht. tauto.
  - clear Hf. destruct (if negb (locked_down o) then _ else _).
    + split; [discriminate|]. intros H. elim H.
      destruct (proj1 Ht eq_refl) as [?|[[_ ?]|?]]; tauto.
    + split; [intros _ H|reflexivity].
      assert (false = true); [|discriminate]. apply Ht. tauto.
  - clear Ht. destruct (if negb (locked_down o) then _ else _); cbn [fst].
    + split; [intros _|reflexivity].
      destruct (proj1 Hf eq_refl) as [?|[[? _]|?]]; [tauto|discriminate|tauto].
    + split; [discriminate|]. intros H.
      assert (false = true); [|discriminate]. apply Hf. tauto.
  - clear Ht. destruct (if negb (locked_down o) then _ else _); cbn [fst].
    + split; [discriminate|]. intros H. elim H.
      destruct (proj1 Hf eq_refl) as [?|[[? _]|?]]; [tauto|discriminate|tauto].
    + split; [intros _ H|reflexivity].
      assert (false = true); [|discriminate]. apply Hf. tauto.
Qed.

Lemma set_property_non_owner s p o sender property_name value :
  sender <> DBusCredentials.owner (creds o) ->
  exists e,
    callback_set_property s p o sender property_name value
    = (Error e, o, alias_objects s)
    /\ (e = ReadOnly \/ e = AccessDenied).
Proof.
  intros Hne. unfold callback_set_property.
  rewrite (owner_check_non_owner _ _ Hne).
  destruct (readonly o); eexists; split; eauto.
Qed.

Lemma step_property_same s p sender property_name value r :
  (forall o, StdMap.find p (config_objects s) = Some o ->
             callback_set_property s p o sender property_name value
             = (r, o, alias_objects s)) ->
  snd (step s (PropertySet p sender property_name value)) = s.
Proof.
  intros H. cbn [step].
  destruct (StdMap.find p (config_objects s)) as [o|] eqn:Hf; [|reflexivity].
  rewrite (H o eq_refl). cbn [snd].
  rewrite (update_unchanged _ _ _ Hf). apply service_eta.
Qed.

(** X4.  Only the owner changes a profile.  For a caller who is not the
    owner, root included, every method call other than Fetch and every
    property write leave the service as it was; the method call returns no
    value unless it is FetchJSON, and the property write ends in the
    read-only or the access error. *)
Theorem only_owner_mutates s p o sender :
  StdMap.find p (config_objects s) = Some o ->
  sender <> DBusCredentials.owner (creds o) ->
  (forall method_name params now,
      method_name <> "Fetch" ->
      snd (step s (ObjectCall p sender method_name params now)) = s
      /\ (method_name <> "FetchJSON" ->
          forall v, fst (step s (ObjectCall p sender method_name params now))
                    <> Return v))
  /\ (forall property_name value,
        step s (PropertySet p sender property_name value) = (Error ReadOnly, s)
        \/ step s (PropertySet p sender property_name value)
           = (Error AccessDenied, s)).
Proof.
  intros Hf Hne. split.
  - intros m params now Hm.
    assert (Hm' : ("Fetch" =? m)%string = false)
      by (apply String.eqb_neq; congruence).
    destruct (method_call_non_owner o sender m params now Hne Hm') as [Hs Hr].
    split.
    + apply step_object_same. intros o' Ho'. congruence.
    + intros Hj v. cbn [step]. rewrite Hf.
      assert (Hj' : ("FetchJSON" =? m)%string = false)
        by (apply String.eqb_neq; congruence).
      specialize (Hr Hj' v).
      destruct (callback_method_call o sender m params now) as [r [o'|]];
        exact Hr.
  - intros prop value.
    destruct (set_property_non_owner s p o sender prop value Hne)
      as [e [He Hcase]].
    cbn [step]. rewrite Hf, He.
    rewrite (update_unchanged _ _ _ Hf), service_eta.
    destruct Hcase as [-> | ->]; auto.
Qed.

(** X5.  What removes a profile.  If a call makes a profile disappear from
    the registry, the call was Remove by the profile's owner, or Fetch by
    root on a profile that is single-use; nothing else ever erases an
    entry. *)
Theorem removal_only_by_remove_or_consuming_fetch s c p o :
  StdMap.find p (config_objects s) = Some o ->
  StdMap.find p (config_objects (snd (step s c))) = None ->
  exists params now,
    c = ObjectCall p (DBusCredentials.owner (creds o)) "Remove" params now
    \/ (c = ObjectCall p DBusCredentials.root "Fetch" params now
        /\ single_use o = true).
Proof.
  intros Hf Hgone.
  assert (Hcases : target c = Some p \/ target c <> Some p).
  { destruct (target c) as [q|]; [|right; discriminate].
    destruct (String.eqb_spec q p) as [->|Hne]; [now left|right; congruence]. }
  destruct Hcases as [Ht|Hne].
  - destruct c as [sender m params env|q sender m params now
                  |q sender prop|q sender prop value];
      cbn [target] in Ht; inversion Ht; subst q; cbn [step] in Hgone;
      rewrite Hf in Hgone.
    + destruct (callback_method_call o sender m params now) as [r [o'|]] eqn:Hc.
      * cbn [snd config_objects] in Hgone.
        rewrite find_update, Hf in Hgone. discriminate.
      * apply method_call_deleted in Hc. exists params, now.
        destruct Hc as [[-> ->]|[-> [-> Hs]]]; [left|right]; auto.
    + cbn [snd] in Hgone. congruence.
    + destruct (callback_set_property s p o sender prop value) as [[r o'] al].
      cbn [snd config_objects] in Hgone.
      rewrite find_update, Hf in Hgone. discriminate.
  - destruct (step_present s c p o Hf Hne) as [o' Ho']. congruence.
Qed.

(** X6.  Reading does not write.  FetchJSON by any caller, on any profile
    (single-use ones included), Fetch by any caller other than root, and
    every property read leave the service exactly as it was. *)
Theorem reads_leave_service_unchanged s p sender params now property_name :
  snd (step s (ObjectCall p sender "FetchJSON" params now)) = s
  /\ (sender <> DBusCredentials.root ->
      snd (step s (ObjectCall p sender "Fetch" params now)) = s)
  /\ snd (step s (PropertyGet p sender property_name)) = s.
Proof.
  split; [|split].
  - apply step_object_same. intros o _. unfold callback_method_call.
    cbn [String.eqb Ascii.eqb Bool.eqb]. now case_ifs.
  - intros Hr. apply step_object_same. intros o _.
    unfold callback_method_call. cbn [String.eqb Ascii.eqb Bool.eqb].
    apply N.eqb_neq in Hr. unfold DBusCredentials.root in Hr. rewrite Hr.
    now case_ifs.
  - cbn [step]. now destruct (StdMap.find p (config_objects s)).
Qed.

(** X7.  Properties without a write branch cannot be written.  A write to
    any property other than alias, name, locked_down, public_access and
    persist_tun (owner, single_use, persistent, used_count and the rest)
    changes nothing, whoever asks: the owner of an unsealed profile gets
    the failure "Denied", a sealed profile answers with the read-only
    error, and anyone else gets the access error. *)
Theorem read_only_properties_cannot_be_written s p o sender property_name value :
  StdMap.find p (config_objects s) = Some o ->
  writable_property property_name = false ->
  step s (PropertySet p sender property_name value)
  = (Error (if readonly o then ReadOnly
            else if sender =? DBusCredentials.owner (creds o)
                 then Failed "Denied" else AccessDenied),
     s).
Proof.
  intros Hf Hw. unfold writable_property in Hw.
  repeat (apply orb_false_iff in Hw; destruct Hw as [Hw ?]).
  cbn [step]. rewrite Hf. unfold callback_set_property.
  unfold DBusCredentials.CheckOwnerAccess. cbn [andb]. rewrite orb_false_r.
  destruct (readonly o);
    [|destruct (sender =? DBusCredentials.owner (creds o))];
    repeat match goal with H : (_ =? _)%string = false |- _ => rewrite H; clear H end;
    cbn [snd fst]; rewrite (update_unchanged _ _ _ Hf), service_eta; reflexivity.
Qed.

Lemma find_update_same (V : Type) (k : string) (v v0 : V) (m : StdMap.t V) :
  StdMap.find k m = Some v0 -> StdMap.find k (StdMap.update k v m) = Some v.
Proof. intros H. now rewrite find_update, H, String.eqb_refl. Qed.

(** X8.  A written property reads back.  When the owner of an unsealed
    profile writes name, locked_down, public_access or persist_tun, the
    write returns the new value, and a read of the same property by the
    owner right after returns that value. *)
Theorem property_write_then_read s p o :
  StdMap.find p (config_objects s) = Some o ->
  readonly o = false ->
  (forall v,
      let r := step s (PropertySet p (DBusCredentials.owner (creds o)) "name"
                         (GVstring v)) in
      fst r = Return (GVstring v)
      /\ fst (step (snd r) (PropertyGet p (DBusCredentials.owner (creds o)) "name"))
         = Return (GVstring v))
  /\ (forall property_name b,
        property_name = "locked_down" \/ property_name = "public_access"
        \/ property_name = "persist_tun" ->
        let r := step s (PropertySet p (DBusCredentials.owner (creds o))
                           property_name (GVboolean b)) in
        fst r = Return (GVboolean b)
        /\ fst (step (snd r)
                  (PropertyGet p (DBusCredentials.owner (creds o)) property_name))
           = Return (GVboolean b)).
Proof.
  intros Hf Hro. split.
  - intros v r. subst r. cbn [step]. rewrite Hf.
    unfold callback_set_property. rewrite Hro, owner_check_owner.
    cbn [String.eqb Ascii.eqb Bool.eqb fst snd config_objects].
    split; [reflexivity|].
    rewrite (find_update_same _ _ _ _ _ Hf).
    unfold callback_get_property.
    cbn [String.eqb Ascii.eqb Bool.eqb fst creds set_name name].
    now rewrite acl_check_owner.
  - intros prop b Hp r. subst r. cbn [step]. rewrite Hf.
    unfold callback_set_property. rewrite Hro, owner_check_owner.
    destruct Hp as [->|[->| ->]];
      cbn [String.eqb Ascii.eqb Bool.eqb fst snd config_objects];
      (split; [reflexivity|]);
      rewrite (find_update_same _ _ _ _ _ Hf);
      unfold callback_get_property;
      cbn [String.eqb Ascii.eqb Bool.eqb fst creds set_locked_down set_creds
             set_persist_tun locked_down persist_tun DBusCredentials.owner
             DBusCredentials.SetPublicAccess DBusCredentials.GetPublicAccess
             DBusCredentials.acl_public];
      unfold DBusCredentials.CheckACL;
      cbn [DBusCredentials.owner]; now rewrite N.eqb_refl.
Qed.

(** X1.  Import stores the profile.  When the parser accepts the text and
    nothing is exported at the generated path, Import returns that path and
    the registry holds, under it, a profile owned by the caller with the
    name and flags of the call, the parsed options, no alias, not sealed,
    never used; every other path and all aliases are as before, and the
    caller's list contains the new path. *)
Theorem import_stores_profile s sender cfgname cfgstr single persist env opts :
  parse_from_config cfgstr = inr opts ->
  registered (config_objects s) (alias_objects s) (generated_path env) = false ->
  let r := step s (ManagerCall sender "Import"
                     (GVimport cfgname cfgstr single persist) env) in
  fst r = Return (GVobject_path (generated_path env))
  /\ StdMap.find (generated_path env) (config_objects (snd r))
     = Some {| creds := DBusCredentials.init sender;
               name := cfgname;
               import_tstamp := clock env;
               last_use_tstamp := 0%Z;
               used_count := 0;
               valid := true;
               readonly := false;
               single_use := single;
               persistent := persist;
               locked_down := uninitialised_bool env;
               persist_tun := false;
               alias := None;
               options := opts |}
  /\ (forall q, q <> generated_path env ->
        StdMap.find q (config_objects (snd r)) = StdMap.find q (config_objects s))
  /\ alias_objects (snd r) = alias_objects s
  /\ In (generated_path env) (available_configs (snd r) sender).
Proof.
  intros Hp Hr r. subst r. cbn [step].
  unfold manager_method_call, new_ConfigurationObject, RegisterObject.
  cbn [String.eqb Ascii.eqb Bool.eqb]. rewrite Hp, Hr.
  cbn [negb fst snd config_objects alias_objects].
  split; [reflexivity|]. split; [apply find_assign_same|].
  split; [intros q Hq; now apply find_assign_other|].
  split; [reflexivity|].
  unfold available_configs, StdMap.keys. cbn [config_objects].
  apply in_map_iff. eexists (generated_path env, _). split; [reflexivity|].
  apply filter_In. split.
  - apply find_In. apply find_assign_same.
  - cbn [snd creds]. apply acl_check_owner.
Qed.

(** X2.  The creator gets the profile back.  Right after a successful
    Import, Fetch by the importing caller returns the text export of the
    parsed options and FetchJSON returns their JSON export, whatever the
    uninitialised [locked_down] member happens to hold. *)
Theorem import_then_creator_fetches s sender cfgname cfgstr single persist env opts
    params now :
  parse_from_config cfgstr = inr opts ->
  registered (config_objects s) (alias_objects s) (generated_path env) = false ->
  let s' := snd (step s (ManagerCall sender "Import"
                           (GVimport cfgname cfgstr single persist) env)) in
  fst (step s' (ObjectCall (generated_path env) sender "Fetch" params now))
  = Return (GVstring (string_export opts))
  /\ fst (step s' (ObjectCall (generated_path env) sender "FetchJSON" params now))
     = Return (GVstring (json_export opts)).
Proof.
  intros Hp Hr s'. subst s'. cbn [step].
  unfold manager_method_call, new_ConfigurationObject, RegisterObject.
  cbn [String.eqb Ascii.eqb Bool.eqb]. rewrite Hp, Hr.
  cbn [negb fst snd config_objects alias_objects].
  rewrite find_assign_same. unfold callback_method_call.
  cbn [String.eqb Ascii.eqb Bool.eqb creds locked_down options single_use].
  pose proof (acl_check_owner (DBusCredentials.init sender)) as Ha.
  pose proof (owner_check_owner (DBusCredentials.init sender)) as Ho.
  cbn [DBusCredentials.owner DBusCredentials.init] in Ha, Ho.
  rewrite !Ha, !Ho.
  destruct (uninitialised_bool env); cbn [negb];
    split; case_ifs; reflexivity.
Qed.

Lemma method_call_import_data o sender method_name params now r o' :
  callback_method_call o sender method_name params now = (r, Alive o') ->
  import_data o' = import_data o.
Proof.
  unfold callback_method_call, import_data.
  case_ifs; intros H; inversion H; subst; cbn; rewrite ?GrantAccess_owner;
    congruence.
Qed.

Lemma set_property_import_data s p o sender property_name value r o' al :
  callback_set_property s p o sender property_name value = (r, o', al) ->
  import_data o' = import_data o.
Proof.
  unfold callback_set_property, import_data.
  case_ifs; intros H; inversion H; subst; cbn; congruence.
Qed.

(** A call leaves the import data of every profile it does not remove. *)
Lemma step_import_data s c p o :
  StdMap.find p (config_objects s) = Some o ->
  match StdMap.find p (config_objects (snd (step s c))) with
  | Some o' => import_data o' = import_data o
  | None => True
  end.
Proof.
  intros Hf. destruct c as [sender m params env|q sender m params now
                           |q sender prop|q sender prop value]; cbn [step].
  - unfold manager_method_call.
    destruct ("Import" =? m)%string.
    + destruct params; cbn [snd]; rewrite ?Hf; auto.
      destruct (new_ConfigurationObject _ _ _ _ _ _); cbn [snd]; rewrite ?Hf; auto.
      unfold RegisterObject.
      destruct (registered _ _ _) eqn:Hr; cbn [negb snd config_objects];
        rewrite ?Hf; auto.
      apply registered_false_find in Hr.
      rewrite find_assign_other; [now rewrite Hf|congruence].
    + destruct ("FetchAvailableConfigs" =? m)%string; cbn [snd]; now rewrite Hf.
  - destruct (StdMap.find q (config_objects s)) as [oq|] eqn:Hq; cbn [snd];
      [|now rewrite Hf].
    destruct (callback_method_call oq sender m params now) as [r [o'|]] eqn:Hc;
      cbn [snd config_objects remove_config_object].
    + rewrite find_update, Hf.
      destruct (String.eqb_spec p q) as [->|_]; [|reflexivity].
      apply method_call_import_data in Hc. congruence.
    + destruct (String.eqb_spec p q) as [->|Hne].
      * now rewrite find_erase_same.
      * rewrite find_erase_other by exact Hne. now rewrite Hf.
  - destruct (StdMap.find q (config_objects s)); cbn [snd]; now rewrite Hf.
  - destruct (StdMap.find q (config_objects s)) as [oq|] eqn:Hq; cbn [snd];
      [|now rewrite Hf].
    destruct (callback_set_property s q oq sender prop value) as [[r o'] al] eqn:Hc.
    cbn [snd config_objects]. rewrite find_update, Hf.
    destruct (String.eqb_spec p q) as [->|_]; [|reflexivity].
    apply set_property_import_data in Hc. congruence.
Qed.

(** X9.  What is fixed at import stays fixed.  Through any sequence of
    calls in which the path generator does not hand out the profile's path
    again, a profile that is still in the registry has the owner, the
    single_use and persistent flags, the import time and the parsed options
    it was imported with. *)
Theorem import_data_is_immutable s cs p o :
  StdMap.find p (config_objects s) = Some o ->
  ~ In (Some p) (map generated cs) ->
  match StdMap.find p (config_objects (run s cs)) with
  | Some o' => import_data o' = import_data o
  | None => True
  end.
Proof.
  revert s o. induction cs as [|c cs IH]; simpl; intros s o Hf Hg.
  - now rewrite Hf.
  - assert (H := step_import_data s c p o Hf).
    destruct (StdMap.find p (config_objects (snd (step s c)))) as [o1|] eqn:H1.
    + assert (Hg' : ~ In (Some p) (map generated cs)) by tauto.
      specialize (IH (snd (step s c)) o1 H1 Hg').
      change (fold_left (fun st c0 => snd (step st c0)) cs (snd (step s c)))
        with (run (snd (step s c)) cs).
      destruct (StdMap.find p (config_objects (run (snd (step s c)) cs)));
        [congruence|exact I].
    + change (fold_left (fun st c0 => snd (step st c0)) cs (snd (step s c)))
        with (run (snd (step s c)) cs).
      rewrite run_absent; [exact I|exact H1|tauto].
Qed.

(** What a call that brings a profile into being must have been. *)
Lemma step_created s c p o :
  StdMap.find p (config_objects s) = None ->
  StdMap.find p (config_objects (snd (step s c))) = Some o ->
  exists sender cfgname cfgstr single persist env,
    c = ManagerCall sender "Import" (GVimport cfgname cfgstr single persist) env
    /\ generated_path env = p
    /\ new_ConfigurationObject sender cfgname cfgstr single persist env = inr o.
Proof.
  intros Hf Hs. destruct c as [sender m params env|q sender m params now
                              |q sender prop|q sender prop value];
    cbn [step] in Hs.
  - unfold manager_method_call in Hs.
    destruct (String.eqb_spec "Import" m) as [<-|_].
    + destruct params; cbn [snd] in Hs; try congruence.
      destruct (new_ConfigurationObject _ _ _ _ _ _) as [msg|cfgobj] eqn:Hn;
        cbn [snd] in Hs; [congruence|].
      destruct (RegisterObject _ _ _); cbn [snd config_objects] in Hs;
        [|congruence].
      destruct (String.eqb_spec p (generated_path env)) as [->|Hne].
      * rewrite find_assign_same in Hs. inversion Hs; subst.
        do 6 eexists. repeat split. exact Hn.
      * rewrite find_assign_other in Hs by exact Hne. congruence.
    + destruct ("FetchAvailableConfigs" =? m)%string; cbn [snd] in Hs; congruence.
  - destruct (StdMap.find q (config_objects s)) as [oq|]; cbn [snd] in Hs;
      [|congruence].
    destruct (callback_method_call oq sender m params now) as [r [o'|]];
      cbn [snd config_objects remove_config_object] in Hs.
    + rewrite find_update_none in Hs; [discriminate|exact Hf].
    + rewrite find_erase_none in Hs; [discriminate|exact Hf].
  - destruct (StdMap.find q (config_objects s)); cbn [snd] in Hs; congruence.
  - destruct (StdMap.find q (config_objects s)) as [oq|]; cbn [snd] in Hs;
      [|congruence].
    destruct (callback_set_property s q oq sender prop value) as [[r o'] al].
    cbn [snd config_objects] in Hs.
    rewrite find_update_none in Hs; [discriminate|exact Hf].
Qed.

(** X10.  Every profile comes from an Import call.  For each profile in a
    state the service reaches there is an Import call in the history that
    was handed the profile's path, whose caller is the profile's owner,
    whose flags are the profile's single_use and persistent flags, whose
    clock reading is the import time and whose text the parser turned into
    the profile's options. *)
Theorem every_profile_was_imported cs p o :
  StdMap.find p (config_objects (reached cs)) = Some o ->
  exists sender cfgname cfgstr single persist env,
    In (ManagerCall sender "Import" (GVimport cfgname cfgstr single persist) env) cs
    /\ generated_path env = p
    /\ parse_from_config cfgstr = inr (options o)
    /\ import_data o = (sender, single, persist, clock env, options o).
Proof.
  revert o. induction cs as [|c cs IH] using rev_ind; intros o Hf.
  - discriminate.
  - unfold reached in *. rewrite run_app in Hf. cbn [run fold_left] in Hf.
    fold (run no_objects cs) in Hf.
    destruct (StdMap.find p (config_objects (run no_objects cs))) as [o0|] eqn:H0.
    + assert (Hd := step_import_data _ c p o0 H0). rewrite Hf in Hd.
      destruct (IH o0 eq_refl)
        as [sender [cfgname [cfgstr [single [persist [env [HIn [Hp [Hparse Hdata]]]]]]]]].
      exists sender, cfgname, cfgstr, single, persist, env.
      assert (Ho : options o = options o0)
        by (unfold import_data in Hd; congruence).
      split; [apply in_or_app; now left|]. split; [exact Hp|].
      split; [congruence|]. rewrite Hd, Ho. exact Hdata.
    + destruct (step_created _ c p o H0 Hf)
        as [sender [cfgname [cfgstr [single [persist [env [-> [Hp Hn]]]]]]]].
      exists sender, cfgname, cfgstr, single, persist, env.
      split; [apply in_or_app; right; now left|]. split; [exact Hp|].
      unfold new_ConfigurationObject in Hn.
      destruct (parse_from_config cfgstr) as [msg|opts]; [discriminate|].
      inversion Hn; subst. split; reflexivity.
Qed.

Lemma append_inj_r (pre a b : string) : (pre ++ a = pre ++ b)%string -> a = b.
Proof.
  induction pre as [|c pre IH]; cbn [append]; intros H; [exact H|].
  inversion H. now apply IH.
Qed.

Lemma alias_path_inj a b : alias_path a = alias_path b -> a = b.
Proof.
  unfold alias_path. intros H.
  apply append_inj_r in H. now apply append_inj_r in H.
Qed.

Lemma not_registered objs aliases a :
  StdMap.find (alias_path a) objs = None -> StdMap.find a aliases = None ->
  registered objs aliases (alias_path a) = false.
Proof.
  intros Ho Ha. unfold registered. rewrite Ho.
  destruct (existsb _ _) eqn:Hx; [|reflexivity].
  apply existsb_exists in Hx. destruct Hx as [a' [HIn E]].
  apply String.eqb_eq, alias_path_inj in E. subst a'.
  now apply find_None_keys in Ha.
Qed.

(** The object path of an alias is valid exactly when the alias name is a
    sequence of non-empty elements of [A-Za-z0-9_] separated by single
    slashes. *)
Lemma alias_path_valid a :
  g_variant_is_object_path (alias_path a) = path_elements a true.
Proof. reflexivity. Qed.

(** X11.  An alias leads to its profile, and to one profile only.  In every
    state the service reaches, the alias of a profile is exported, reading
    config_path from it gives the profile's own path, and no other profile
    in the registry carries the same alias. *)
Theorem alias_resolves_to_its_profile cs p o a :
  StdMap.find p (config_objects (reached cs)) = Some o ->
  alias o = Some a ->
  alias_property_get (reached cs) a "config_path" = Return (GVstring p)
  /\ forall p' o',
       StdMap.find p' (config_objects (reached cs)) = Some o' ->
       alias o' = Some a -> p' = p.
Proof.
  intros Hf Ha.
  assert (Hwf : well_formed (reached cs))
    by apply run_well_formed, well_formed_no_objects.
  assert (E := wf_alias _ Hwf _ _ _ Hf Ha).
  split.
  - unfold alias_property_get. now rewrite E.
  - intros p' o' Hf' Ha'.
    assert (E' := wf_alias _ Hwf _ _ _ Hf' Ha'). congruence.
Qed.

(** X12.  Setting an alias.  When the owner of an unsealed profile asks
    for a well-formed alias name that is free (nothing is exported under
    it once the profile's previous alias is detached), the write returns
    the name, the profile carries it, reading the alias property gives it
    back, the alias resolves to the profile's path, and the previous alias,
    if it was another name, no longer resolves. *)
Theorem set_alias_succeeds s p o a :
  StdMap.find p (config_objects s) = Some o ->
  readonly o = false ->
  path_elements a true = true ->
  StdMap.find (alias_path a) (config_objects s) = None ->
  StdMap.find a (detach_alias s o) = None ->
  let r := step s (PropertySet p (DBusCredentials.owner (creds o)) "alias"
                     (GVstring a)) in
  fst r = Return (GVstring a)
  /\ StdMap.find p (config_objects (snd r)) = Some (set_alias o (Some a))
  /\ fst (step (snd r) (PropertyGet p (DBusCredentials.owner (creds o)) "alias"))
     = Return (GVstring a)
  /\ alias_property_get (snd r) a "config_path" = Return (GVstring p)
  /\ (forall old, alias o = Some old -> old <> a ->
        alias_property_get (snd r) old "config_path" = Error UnknownObject).
Proof.
  intros Hf Hro Hv Hobj Hfree r.
  assert (Hr : r = (Return (GVstring a),
                    {| config_objects :=
                         StdMap.update p (set_alias o (Some a)) (config_objects s);
                       alias_objects := StdMap.assign a p (detach_alias s o) |})).
  { subst r. cbn [step]. rewrite Hf. unfold callback_set_property.
    rewrite Hro, owner_check_owner. cbn [String.eqb Ascii.eqb Bool.eqb].
    fold (detach_alias s o). rewrite alias_path_valid, Hv. cbn [negb].
    unfold RegisterObject. now rewrite (not_registered _ _ _ Hobj Hfree). }
  rewrite Hr. cbn [fst snd]. split; [reflexivity|].
  split; [apply (find_update_same _ _ _ _ _ Hf)|]. split.
  - cbn [step config_objects]. rewrite (find_update_same _ _ _ _ _ Hf).
    unfold callback_get_property.
    cbn [String.eqb Ascii.eqb Bool.eqb fst creds set_alias alias].
    now rewrite acl_check_owner.
  - split.
    + unfold alias_property_get. cbn [alias_objects].
      now rewrite find_assign_same.
    + intros old Hold Hne. unfold alias_property_get. cbn [alias_objects].
      rewrite find_assign_other by exact Hne.
      unfold detach_alias. rewrite Hold. now rewrite find_erase_same.
Qed.

(** X13.  A malformed alias name is refused, and costs the old alias.
    When the owner of an unsealed profile asks for an alias name that is
    empty, has an empty element or holds a character outside
    [A-Za-z0-9_/], the write fails with "Specified alias is invalid"; the
    profile is left without an alias and its previous alias is no longer
    exported. *)
Theorem malformed_alias_is_refused s p o a :
  StdMap.find p (config_objects s) = Some o ->
  readonly o = false ->
  path_elements a true = false ->
  step s (PropertySet p (DBusCredentials.owner (creds o)) "alias" (GVstring a))
  = (Error (AliasExists "Specified alias is invalid"),
     {| config_objects := StdMap.update p (set_alias o None) (config_objects s);
        alias_objects := detach_alias s o |})
  /\ forall old, alias o = Some old ->
       StdMap.find old (detach_alias s o) = None.
Proof.
  intros Hf Hro Hv. split.
  - cbn [step]. rewrite Hf. unfold callback_set_property.
    rewrite Hro, owner_check_owner. cbn [String.eqb Ascii.eqb Bool.eqb].
    fold (detach_alias s o). now rewrite alias_path_valid, Hv.
  - intros old Hold. unfold detach_alias. rewrite Hold. apply find_erase_same.
Qed.

(** X14.  Only an alias write touches the exported aliases.  If a call
    changes the set of exported aliases, it was a write to the alias
    property by the owner of an unsealed profile.  In particular Remove and
    the Fetch that consumes a single-use profile leave the profile's alias
    exported, pointing at a path that no longer carries an object. *)
Theorem aliases_change_only_by_alias_write s c :
  alias_objects (snd (step s c)) <> alias_objects s ->
  exists p o value,
    c = PropertySet p (DBusCredentials.owner (creds o)) "alias" value
    /\ StdMap.find p (config_objects s) = Some o
    /\ readonly o = false.
Proof.
  intros Hch. destruct c as [sender m params env|q sender m params now
                            |q sender prop|q sender prop value];
    cbn [step] in Hch.
  - exfalso. apply Hch. unfold manager_method_call.
    destruct ("Import" =? m)%string.
    + destruct params; try reflexivity.
      destruct (new_ConfigurationObject _ _ _ _ _ _); [reflexivity|].
      now destruct (RegisterObject _ _ _).
    + now destruct ("FetchAvailableConfigs" =? m)%string.
  - exfalso. apply Hch.
    destruct (StdMap.find q (config_objects s)); [|reflexivity].
    now destruct (callback_method_call _ _ _ _ _) as [r [o'|]].
  - exfalso. apply Hch. now destruct (StdMap.find q (config_objects s)).
  - destruct (StdMap.find q (config_objects s)) as [o|] eqn:Hf;
      [|now elim Hch].
    exists q, o, value.
    unfold callback_set_property in Hch.
    destruct (readonly o); [now elim Hch|].
    unfold DBusCredentials.CheckOwnerAccess in Hch. cbn [andb] in Hch.
    rewrite orb_false_r in Hch.
    destruct (N.eqb_spec sender (DBusCredentials.owner (creds o))) as [->|_];
      [|now elim Hch].
    destruct (String.eqb_spec "alias" prop) as [<-|_]; [auto|].
    exfalso. apply Hch. now case_ifs.
Qed.

Lemma uint_incr_bound n : uint_incr n < UINT_MODULUS.
Proof. unfold uint_incr. apply N.mod_lt. discriminate. Qed.

Lemma method_call_used_count_bound o sender method_name params now r o' :
  callback_method_call o sender method_name params now = (r, Alive o') ->
  used_count o < UINT_MODULUS -> used_count o' < UINT_MODULUS.
Proof.
  unfold callback_method_call.
  case_ifs; intros H; inversion H; subst; cbn [used_count set_used set_creds
    set_readonly]; auto using uint_incr_bound.
Qed.

Lemma set_property_used_count s p o sender property_name value r o' al :
  callback_set_property s p o sender property_name value = (r, o', al) ->
  used_count o' = used_count o.
Proof.
  unfold callback_set_property.
  case_ifs; intros H; inversion H; subst; reflexivity.
Qed.

Definition counts_in_range (s : Service) : Prop :=
  Forall (fun item => used_count (snd item) < UINT_MODULUS) (config_objects s).

Lemma step_counts_in_range s c :
  counts_in_range s -> counts_in_range (snd (step s c)).
Proof.
  unfold counts_in_range.
  intros Hs. destruct c as [sender m params env|p sender m params now
                           |p sender prop|p sender prop value]; cbn [step].
  - unfold manager_method_call.
    destruct ("Import" =? m)%string.
    + destruct params; cbn [snd]; auto.
      unfold new_ConfigurationObject.
      destruct (parse_from_config config_str); cbn [snd]; auto.
      destruct (RegisterObject _ _ _); cbn [snd config_objects]; auto.
      apply (Forall_assign (fun v => used_count v < UINT_MODULUS)); [exact Hs|].
      reflexivity.
    + destruct ("FetchAvailableConfigs" =? m)%string; cbn [snd]; auto.
  - destruct (StdMap.find p (config_objects s)) as [o|] eqn:Hf; cbn [snd]; auto.
    destruct (callback_method_call o sender m params now) as [r [o'|]] eqn:Hc;
      cbn [snd config_objects remove_config_object].
    + apply (Forall_update (fun v => used_count v < UINT_MODULUS)); [exact Hs|].
      apply (method_call_used_count_bound _ _ _ _ _ _ _ Hc).
      apply find_In in Hf. rewrite Forall_forall in Hs. exact (Hs _ Hf).
    + now apply (Forall_erase (fun v => used_count v < UINT_MODULUS)).
  - destruct (StdMap.find p (config_objects s)); cbn [snd]; auto.
  - destruct (StdMap.find p (config_objects s)) as [o|] eqn:Hf; cbn [snd]; auto.
    destruct (callback_set_property s p o sender prop value) as [[r o'] al] eqn:Hc.
    cbn [snd config_objects].
    apply (Forall_update (fun v => used_count v < UINT_MODULUS)); [exact Hs|].
    rewrite (set_property_used_count _ _ _ _ _ _ _ _ _ Hc).
    apply find_In in Hf. rewrite Forall_forall in Hs. exact (Hs _ Hf).
Qed.

Lemma run_counts_in_range s cs : counts_in_range s -> counts_in_range (run s cs).
Proof.
  revert s. induction cs as [|c cs IH]; simpl; intros s Hs; [exact Hs|].
  apply IH. now apply step_counts_in_range.
Qed.

(** X15.  What holds of every profile the service ever holds.  In every
    state the service reaches, each profile is marked valid and its
    [used_count] is below 2^32; so a permitted read of the valid property
    returns true, and Seal is never answered with the invalid-data
    error. *)
Theorem reachable_profiles_are_valid cs p o :
  StdMap.find p (config_objects (reached cs)) = Some o ->
  valid o = true
  /\ used_count o < UINT_MODULUS
  /\ (forall sender,
        DBusCredentials.CheckACL (creds o) sender false = true ->
        step (reached cs) (PropertyGet p sender "valid")
        = (Return (GVboolean true), reached cs))
  /\ (forall sender params now,
        fst (step (reached cs) (ObjectCall p sender "Seal" params now))
        <> Error InvalidData).
Proof.
  intros Hf.
  assert (Hv : valid o = true).
  { apply find_valid with (reached cs) p; [|exact Hf].
    apply wf_valid, run_well_formed, well_formed_no_objects. }
  assert (Hc : used_count o < UINT_MODULUS).
  { assert (H : counts_in_range (reached cs))
      by (apply run_counts_in_range; constructor).
    unfold counts_in_range in H. rewrite Forall_forall in H.
    exact (H _ (find_In _ _ _ Hf)). }
  split; [exact Hv|]. split; [exact Hc|]. split.
  - intros sender Hacl. cbn [step]. rewrite Hf.
    unfold callback_get_property. cbn [String.eqb Ascii.eqb Bool.eqb].
    now rewrite Hacl, Hv.
  - intros sender params now. cbn [step]. rewrite Hf.
    unfold callback_method_call. cbn [String.eqb Ascii.eqb Bool.eqb].
    rewrite Hv. case_ifs; discriminate.
Qed.

Lemma step_root_fetch s p o now :
  StdMap.find p (config_objects s) = Some o -> single_use o = false ->
  StdMap.find p
    (config_objects
       (snd (step s (ObjectCall p DBusCredentials.root "Fetch" GVnull now))))
  = Some (set_used o (uint_incr (used_count o)) now).
Proof.
  intros Hf Hs. cbn [step]. rewrite Hf. unfold callback_method_call.
  cbn [String.eqb Ascii.eqb Bool.eqb]. rewrite root_passes_fetch, Hs.
  unfold DBusCredentials.root. cbn [N.eqb snd config_objects].
  apply (find_update_same _ _ _ _ _ Hf).
Qed.

(** X16.  The counter counts.  On a profile that is not single-use and
    whose counter is in range, a series of n Fetch calls by root leaves the
    profile in place with [used_count] raised by n modulo 2^32. *)
Theorem root_fetches_are_counted s p o times :
  StdMap.find p (config_objects s) = Some o ->
  single_use o = false ->
  used_count o < UINT_MODULUS ->
  exists o',
    StdMap.find p (config_objects (run s (root_fetches p times))) = Some o'
    /\ used_count o'
       = (used_count o + N.of_nat (length times)) mod UINT_MODULUS
    /\ import_data o' = import_data o.
Proof.
  revert s o. induction times as [|now times IH]; intros s o Hf Hs Hc.
  - exists o. split; [exact Hf|]. split; [|reflexivity].
    cbn [length N.of_nat]. rewrite N.add_0_r. symmetry. now apply N.mod_small.
  - cbn [root_fetches map run fold_left].
    pose proof (step_root_fetch s p o now Hf Hs) as H1.
    destruct (IH _ _ H1 Hs (uint_incr_bound _)) as [o' [Hf' [Hc' Hd']]].
    exists o'. split; [exact Hf'|]. split.
    + rewrite Hc'. cbn [used_count set_used]. unfold uint_incr.
      rewrite N.Div0.add_mod_idemp_l. f_equal.
      cbn [length]. lia.
    + rewrite Hd'. reflexivity.
Qed.

End ConfigManager.

Arguments step {OptionListJSON}.
Arguments run {OptionListJSON}.
Arguments reached {OptionListJSON}.
Arguments no_objects {OptionListJSON}.
Arguments callback_method_call {OptionListJSON}.
Arguments callback_get_property {OptionListJSON}.
Arguments callback_set_property {OptionListJSON}.
Arguments config_objects {OptionListJSON}.
Arguments alias_objects {OptionListJSON}.
Arguments available_configs {OptionListJSON}.
Arguments remove_config_object {OptionListJSON}.
Arguments detach_alias {OptionListJSON}.
Arguments spec_CheckAccess_Read {OptionListJSON}.
Arguments spec_List {OptionListJSON}.
Arguments worn_profile {OptionListJSON}.
Arguments set_locked_down {OptionListJSON}.
Arguments set_readonly {OptionListJSON}.
Arguments set_alias {OptionListJSON}.
Arguments set_used {OptionListJSON}.
Arguments Alive {OptionListJSON}.
Arguments Deleted {OptionListJSON}.
Arguments creds {OptionListJSON}.
Arguments alias {OptionListJSON}.
Arguments readonly {OptionListJSON}.
Arguments single_use {OptionListJSON}.
Arguments locked_down {OptionListJSON}.
Arguments used_count {OptionListJSON}.
Arguments last_use_tstamp {OptionListJSON}.
Arguments options {OptionListJSON}.

(** ** The service on concrete calls

    The parser is [plain_parse] with a limit of 64 bytes. *)

Local Abbreviation plain_step := (step (plain_parse 64) plain_export plain_json_export).
Local Abbreviation plain_reached :=
  (reached (plain_parse 64) plain_export plain_json_export).
Local Abbreviation plain_call := (callback_method_call plain_export plain_json_export).
Local Abbreviation plain_run := (run (plain_parse 64) plain_export plain_json_export).

Local Abbreviation locked_profile :=
  (set_locked_down (worn_profile sample_config) true).
Local Abbreviation used_profile :=
  (set_used (worn_profile sample_config) 41 1500000001%Z).

(** *** Instances of the theorems above *)

Lemma fetch_locked_down_access_witness :
  locked_down locked_profile = true
  /\ (fst (plain_call locked_profile 2000 "Fetch" GVnull 1500000002%Z)
        = Return (GVstring (plain_export (options locked_profile)))
      <-> 2000 = DBusCredentials.owner (creds locked_profile)
          \/ 2000 = DBusCredentials.root)
  /\ (fst (plain_call locked_profile 2000 "Fetch" GVnull 1500000002%Z)
        = Error AccessDenied
      <-> 2000 <> DBusCredentials.owner (creds locked_profile)
          /\ 2000 <> DBusCredentials.root)
  /\ (fst (plain_call locked_profile 2000 "FetchJSON" GVnull 1500000002%Z)
        = Return (GVstring (plain_json_export (options locked_profile)))
      <-> 2000 = DBusCredentials.owner (creds locked_profile))
  /\ (fst (plain_call locked_profile 2000 "FetchJSON" GVnull 1500000002%Z)
        = Error AccessDenied
      <-> 2000 <> DBusCredentials.owner (creds locked_profile)).
Proof.
  split; [reflexivity|].
  apply (fetch_locked_down_access string plain_export plain_json_export
           locked_profile 2000 GVnull 1500000002%Z).
  reflexivity.
Defined.


Lemma sealed_rejects_mutation_witness :
  exists o,
    StdMap.find path_b (config_objects (plain_reached sealed_work)) = Some o
    /\ readonly o = true
    /\ (forall sender method_name params now,
          mutating_method method_name = true ->
          plain_step (plain_reached sealed_work)
            (ObjectCall path_b sender method_name params now)
          = (Error ReadOnly, plain_reached sealed_work))
    /\ (forall sender property_name value,
          plain_step (plain_reached sealed_work)
            (PropertySet path_b sender property_name value)
          = (Error ReadOnly, plain_reached sealed_work))
    /\ fst (plain_step (plain_reached sealed_work)
              (ObjectCall path_b (DBusCredentials.owner (creds o)) "Remove"
                          GVnull 1500000002%Z))
       = Return GVnull.
Proof.
  eexists. split; [reflexivity|]. split; [reflexivity|].
  pose proof (sealed_rejects_mutation string (plain_parse 64) plain_export
                plain_json_export (plain_reached sealed_work) path_b _
                eq_refl eq_refl) as H.
  split; [exact (proj1 H)|]. split; [exact (proj1 (proj2 H))|].
  exact (proj1 (proj2 (proj2 H) GVnull 1500000002%Z)).
Defined.

Lemma seal_and_lifecycle_witness :
  exists o,
    StdMap.find path_b (config_objects (plain_reached sealed_work)) = Some o
    /\ readonly o = true
    /\ plain_step (plain_reached sealed_work)
         (ObjectCall path_b 1000 "Seal" GVnull 1500000002%Z)
       = (Return GVnull,
          {| config_objects :=
               StdMap.update path_b (set_readonly o true)
                 (config_objects (plain_reached sealed_work));
             alias_objects := alias_objects (plain_reached sealed_work) |}).
Proof.
  eexists. split; [reflexivity|]. split; [reflexivity|].
  exact (proj1 (seal_and_lifecycle string (plain_parse 64) plain_export
                  plain_json_export sealed_work path_b _ eq_refl)
               1000 GVnull 1500000002%Z).
Defined.

Lemma set_alias_conflict_witness :
  exists o,
    StdMap.find path_a (config_objects (plain_reached two_aliases)) = Some o
    /\ readonly o = false
    /\ StdMap.find "work" (alias_objects (plain_reached two_aliases)) = Some path_b
    /\ path_b <> path_a
    /\ (exists msg,
          fst (plain_step (plain_reached two_aliases)
                 (PropertySet path_a (DBusCredentials.owner (creds o)) "alias"
                              (GVstring "work")))
          = Error (AliasExists msg))
    /\ StdMap.find path_a
         (config_objects
            (snd (plain_step (plain_reached two_aliases)
                    (PropertySet path_a (DBusCredentials.owner (creds o)) "alias"
                                 (GVstring "work")))))
       = Some (set_alias o None).
Proof.
  eexists. split; [reflexivity|]. split; [reflexivity|].
  split; [reflexivity|]. split; [discriminate|].
  pose proof (set_alias_conflict string (plain_parse 64) plain_export
                plain_json_export two_aliases path_a path_b _ "work"
                eq_refl eq_refl eq_refl
                (fun E : path_b = path_a => eq_ind path_b
                   (fun p => if String.eqb p path_a then False else True) I
                   path_a E)) as H.
  split; [exact (proj1 H)|exact (proj1 (proj2 H))].
Defined.


Lemma import_rejected_witness :
  plain_parse 64 oversized_config = inl "profile is too large"
  /\ StdMap.find path_a (config_objects (@no_objects string)) = None
  /\ fst (plain_step no_objects
            (import_call path_a 1000 "big" oversized_config false false))
     = Error (ParseError "profile is too large")
  /\ snd (plain_step no_objects
            (import_call path_a 1000 "big" oversized_config false false))
     = no_objects.
Proof.
  split; [reflexivity|]. split; [reflexivity|].
  pose proof (import_rejected string (plain_parse 64) plain_export
                plain_json_export no_objects 1000 "big" oversized_config
                false false
                {| generated_path := path_a; clock := 1500000000%Z;
                   uninitialised_bool := false |}
                "profile is too large" eq_refl eq_refl) as H.
  split; [exact (proj1 H)|exact (proj1 (proj2 H))].
Defined.

(** *** Where the code departs from the specification's wording *)


(** C3.  A call on a removed profile: after the owner has sealed and
    removed the profile, AccessGrant by the owner is answered with
    UnknownObject, not with the read-only error. *)
Lemma removed_profile_answers_unknown_object :
  StdMap.find path_b (config_objects (plain_reached removed_work)) = None
  /\ plain_step (plain_reached removed_work)
       (ObjectCall path_b 1000 "AccessGrant" (GVuint32 2000) 1500000003%Z)
     = (Error UnknownObject, plain_reached removed_work)
  /\ fst (plain_step (plain_reached removed_work)
            (ObjectCall path_b 1000 "AccessGrant" (GVuint32 2000) 1500000003%Z))
     <> Error ReadOnly
  /\ fst (plain_step (plain_reached removed_work)
            (ObjectCall path_b 1000 "AccessGrant" (GVuint32 2000) 1500000003%Z))
     <> Error InvalidData.
Proof.
  split; [reflexivity|]. split; [reflexivity|]. split; discriminate.
Qed.

(** C4.  Seal on a profile that is already sealed: the owner's second Seal
    returns normally, not with an invalid-state error. *)
Lemma seal_on_sealed_succeeds :
  option_map readonly
    (StdMap.find path_b (config_objects (plain_reached sealed_work)))
  = Some true
  /\ fst (plain_step (plain_reached sealed_work)
            (ObjectCall path_b 1000 "Seal" GVnull 1500000002%Z))
     = Return GVnull.
Proof. split; reflexivity. Qed.

(** C5.  The list of a granted subject holds a locked-down profile that
    the Read evaluator of the specification denies to that subject; and two
    profiles come back in the order of their paths, not in the order of
    their import. *)
Lemma list_differs_from_spec_List :
  (fst (plain_step (plain_reached locked_down_shared)
          (ManagerCall 2000 "FetchAvailableConfigs" GVnull
             {| generated_path := path_a; clock := 1500000003%Z;
                uninitialised_bool := false |}))
   = Return (GVobject_path_array [path_b])
   /\ spec_List (plain_reached locked_down_shared) locked_down_shared 2000 = [])
  /\ (fst (plain_step (plain_reached two_imports)
             (ManagerCall 1000 "FetchAvailableConfigs" GVnull
                {| generated_path := path_a; clock := 1500000003%Z;
                   uninitialised_bool := false |}))
      = Return (GVobject_path_array [path_a; path_b])
      /\ spec_List (plain_reached two_imports) two_imports 1000
         = [path_b; path_a]).
Proof. repeat split. Qed.

(** C6.  On a locked-down profile of subject 1000 shared with 2000: root,
    who is neither owner nor granted nor covered by the public flag, reads
    persist_tun; and the granted subject 2000 reads the name, although the
    Read evaluator of the specification denies both. *)
Lemma metadata_reads_allowed :
  option_map (fun o => (DBusCredentials.owner (creds o),
                        DBusCredentials.acl_list (creds o),
                        DBusCredentials.acl_public (creds o),
                        locked_down o,
                        spec_CheckAccess_Read o 0 false,
                        spec_CheckAccess_Read o 2000 false))
    (StdMap.find path_b (config_objects (plain_reached locked_down_shared)))
  = Some (1000, [2000], false, true, false, false)
  /\ fst (plain_step (plain_reached locked_down_shared)
            (PropertyGet path_b DBusCredentials.root "persist_tun"))
     = Return (GVboolean false)
  /\ fst (plain_step (plain_reached locked_down_shared)
            (PropertyGet path_b 2000 "name"))
     = Return (GVstring "work").
Proof. repeat split. Qed.

(** C7.  Profile path_a has the alias "home" and asks for "work", which
    belongs to path_b: the call fails, and path_a has lost "home". *)
Lemma failed_alias_change_drops_old_alias :
  option_map alias
    (StdMap.find path_a (config_objects (plain_reached two_aliases)))
  = Some (Some "home")
  /\ StdMap.find "home" (alias_objects (plain_reached two_aliases)) = Some path_a
  /\ fst (plain_step (plain_reached two_aliases)
            (PropertySet path_a 1000 "alias" (GVstring "work")))
     = Error (AliasExists "Object path is already registered")
  /\ option_map alias
       (StdMap.find path_a
          (config_objects
             (snd (plain_step (plain_reached two_aliases)
                     (PropertySet path_a 1000 "alias" (GVstring "work"))))))
     = Some None
  /\ StdMap.find "home"
       (alias_objects
          (snd (plain_step (plain_reached two_aliases)
                  (PropertySet path_a 1000 "alias" (GVstring "work")))))
     = None.
Proof. repeat split. Qed.

(** C8.  At the largest unsigned value a Fetch by root succeeds and the
    counter falls back to zero. *)
Lemma used_count_wraps :
  used_count (worn_profile sample_config) = 4294967295
  /\ plain_call (worn_profile sample_config) DBusCredentials.root "Fetch" GVnull
       1500000002%Z
     = (Return (GVstring sample_config),
        Alive (set_used (worn_profile sample_config) 0 1500000002%Z))
  /\ used_count (set_used (worn_profile sample_config) 0 1500000002%Z) = 0.
Proof. repeat split. Qed.

Arguments alias_property_get {OptionListJSON}.
Arguments import_data {OptionListJSON}.
Arguments registered {OptionListJSON}.
Arguments valid {OptionListJSON}.

(** *** Instances of the further properties *)

Local Abbreviation import_env :=
  {| generated_path := path_a; clock := 1500000000%Z; uninitialised_bool := false |}.

Lemma import_stores_profile_witness :
  plain_parse 64 sample_config = inr sample_config
  /\ registered (config_objects (@no_objects string))
       (alias_objects (@no_objects string))
       (generated_path import_env) = false
  /\ fst (plain_step no_objects
            (ManagerCall 1000 "Import" (GVimport "home" sample_config false false)
                         import_env))
     = Return (GVobject_path path_a)
  /\ In path_a
       (available_configs
          (snd (plain_step no_objects
                  (ManagerCall 1000 "Import"
                               (GVimport "home" sample_config false false)
                               import_env)))
          1000).
Proof.
  split; [reflexivity|]. split; [reflexivity|].
  pose proof (import_stores_profile string (plain_parse 64) plain_export
                plain_json_export no_objects 1000 "home" sample_config false false
                import_env sample_config eq_refl eq_refl) as H.
  split; [exact (proj1 H)|exact (proj2 (proj2 (proj2 (proj2 H))))].
Defined.

Lemma import_then_creator_fetches_witness :
  plain_parse 64 sample_config = inr sample_config
  /\ registered (config_objects (@no_objects string))
       (alias_objects (@no_objects string))
       (generated_path import_env) = false
  /\ fst (plain_step
            (snd (plain_step no_objects
                    (ManagerCall 1000 "Import"
                                 (GVimport "home" sample_config false false)
                                 import_env)))
            (ObjectCall path_a 1000 "Fetch" GVnull 1500000001%Z))
     = Return (GVstring (plain_export sample_config))
  /\ fst (plain_step
            (snd (plain_step no_objects
                    (ManagerCall 1000 "Import"
                                 (GVimport "home" sample_config false false)
                                 import_env)))
            (ObjectCall path_a 1000 "FetchJSON" GVnull 1500000001%Z))
     = Return (GVstring (plain_json_export sample_config)).
Proof.
  split; [reflexivity|]. split; [reflexivity|].
  exact (import_then_creator_fetches string (plain_parse 64) plain_export
           plain_json_export no_objects 1000 "home" sample_config false false
           import_env sample_config GVnull 1500000001%Z eq_refl eq_refl).
Defined.

Lemma only_owner_mutates_witness :
  exists o,
    StdMap.find path_b (config_objects (plain_reached two_imports)) = Some o
    /\ 0 <> DBusCredentials.owner (creds o)
    /\ snd (plain_step (plain_reached two_imports)
              (ObjectCall path_b 0 "Remove" GVnull 1500000001%Z))
       = plain_reached two_imports
    /\ (plain_step (plain_reached two_imports)
          (PropertySet path_b 0 "locked_down" (GVboolean true))
        = (Error ReadOnly, plain_reached two_imports)
        \/ plain_step (plain_reached two_imports)
             (PropertySet path_b 0 "locked_down" (GVboolean true))
           = (Error AccessDenied, plain_reached two_imports)).
Proof.
  eexists. split; [reflexivity|].
  assert (Hne : 0 <> 1000) by discriminate.
  split; [exact Hne|].
  pose proof (only_owner_mutates string (plain_parse 64) plain_export
                plain_json_export (plain_reached two_imports) path_b _ 0
                eq_refl Hne) as H.
  split.
  - refine (proj1 (proj1 H "Remove" GVnull 1500000001%Z _)). discriminate.
  - exact (proj2 H "locked_down" (GVboolean true)).
Defined.

Lemma removal_only_by_remove_or_consuming_fetch_witness :
  exists o,
    StdMap.find path_b (config_objects (plain_reached two_imports)) = Some o
    /\ StdMap.find path_b
         (config_objects
            (snd (plain_step (plain_reached two_imports)
                    (ObjectCall path_b 1000 "Remove" GVnull 1500000001%Z))))
       = None
    /\ exists params now,
         ObjectCall path_b 1000 "Remove" GVnull 1500000001%Z
         = ObjectCall path_b (DBusCredentials.owner (creds o)) "Remove" params now
         \/ (ObjectCall path_b 1000 "Remove" GVnull 1500000001%Z
             = ObjectCall path_b DBusCredentials.root "Fetch" params now
             /\ single_use o = true).
Proof.
  eexists. split; [reflexivity|]. split; [reflexivity|].
  exact (removal_only_by_remove_or_consuming_fetch string (plain_parse 64)
           plain_export plain_json_export (plain_reached two_imports)
           (ObjectCall path_b 1000 "Remove" GVnull 1500000001%Z) path_b _
           eq_refl eq_refl).
Defined.

Lemma read_only_properties_cannot_be_written_witness :
  exists o,
    StdMap.find path_b (config_objects (plain_reached two_imports)) = Some o
    /\ writable_property "single_use" = false
    /\ plain_step (plain_reached two_imports)
         (PropertySet path_b 1000 "single_use" (GVboolean true))
       = (Error (Failed "Denied"), plain_reached two_imports).
Proof.
  eexists. split; [reflexivity|]. split; [reflexivity|].
  exact (read_only_properties_cannot_be_written string (plain_parse 64)
           plain_export plain_json_export (plain_reached two_imports) path_b _
           1000 "single_use" (GVboolean true) eq_refl eq_refl).
Defined.

Lemma property_write_then_read_witness :
  exists o,
    StdMap.find path_b (config_objects (plain_reached two_imports)) = Some o
    /\ readonly o = false
    /\ fst (plain_step
              (snd (plain_step (plain_reached two_imports)
                      (PropertySet path_b (DBusCredentials.owner (creds o)) "name"
                                   (GVstring "office"))))
              (PropertyGet path_b (DBusCredentials.owner (creds o)) "name"))
       = Return (GVstring "office")
    /\ fst (plain_step
              (snd (plain_step (plain_reached two_imports)
                      (PropertySet path_b (DBusCredentials.owner (creds o))
                                   "public_access" (GVboolean true))))
              (PropertyGet path_b (DBusCredentials.owner (creds o))
                           "public_access"))
       = Return (GVboolean true).
Proof.
  eexists. split; [reflexivity|]. split; [reflexivity|].
  pose proof (property_write_then_read string (plain_parse 64) plain_export
                plain_json_export (plain_reached two_imports) path_b _
                eq_refl eq_refl) as H.
  split.
  - exact (proj2 (proj1 H "office")).
  - exact (proj2 (proj2 H "public_access" true (or_intror (or_introl eq_refl)))).
Defined.

Local Abbreviation busy_calls :=
  [ ObjectCall path_b 1000 "AccessGrant" (GVuint32 2000) 1500000001%Z;
    PropertySet path_b 1000 "name" (GVstring "office");
    ObjectCall path_b DBusCredentials.root "Fetch" GVnull 1500000002%Z;
    ObjectCall path_b 1000 "Seal" GVnull 1500000003%Z ].

Lemma import_data_is_immutable_witness :
  exists o,
    StdMap.find path_b (config_objects (plain_reached two_imports)) = Some o
    /\ ~ In (Some path_b) (map generated busy_calls)
    /\ match StdMap.find path_b
               (config_objects (plain_run (plain_reached two_imports) busy_calls))
       with
       | Some o' => import_data o' = import_data o
       | None => True
       end.
Proof.
  eexists. split; [reflexivity|].
  assert (Hg : ~ In (Some path_b) (map generated busy_calls)).
  { cbn. intros H. repeat (destruct H as [H|H]; [discriminate|]). exact H. }
  split; [exact Hg|].
  exact (import_data_is_immutable string (plain_parse 64) plain_export
           plain_json_export (plain_reached two_imports) busy_calls path_b _
           eq_refl Hg).
Defined.

Lemma every_profile_was_imported_witness :
  exists o,
    StdMap.find path_b (config_objects (plain_reached two_aliases)) = Some o
    /\ exists sender cfgname cfgstr single persist env,
         In (ManagerCall sender "Import" (GVimport cfgname cfgstr single persist) env)
            two_aliases
         /\ generated_path env = path_b
         /\ plain_parse 64 cfgstr = inr (options o)
         /\ import_data o = (sender, single, persist, clock env, options o).
Proof.
  eexists. split; [reflexivity|].
  exact (every_profile_was_imported string (plain_parse 64) plain_export
           plain_json_export two_aliases path_b _ eq_refl).
Defined.

Lemma alias_resolves_to_its_profile_witness :
  exists o,
    StdMap.find path_b (config_objects (plain_reached two_aliases)) = Some o
    /\ alias o = Some "work"
    /\ alias_property_get (plain_reached two_aliases) "work" "config_path"
       = Return (GVstring path_b).
Proof.
  eexists. split; [reflexivity|]. split; [reflexivity|].
  exact (proj1 (alias_resolves_to_its_profile string (plain_parse 64) plain_export
                  plain_json_export two_aliases path_b _ "work" eq_refl eq_refl)).
Defined.

Lemma set_alias_succeeds_witness :
  exists o,
    StdMap.find path_b (config_objects (plain_reached two_imports)) = Some o
    /\ readonly o = false
    /\ path_elements "work" true = true
    /\ StdMap.find (alias_path "work") (config_objects (plain_reached two_imports))
       = None
    /\ StdMap.find "work" (detach_alias (plain_reached two_imports) o) = None
    /\ fst (plain_step (plain_reached two_imports)
              (PropertySet path_b (DBusCredentials.owner (creds o)) "alias"
                           (GVstring "work")))
       = Return (GVstring "work")
    /\ alias_property_get
         (snd (plain_step (plain_reached two_imports)
                 (PropertySet path_b (DBusCredentials.owner (creds o)) "alias"
                              (GVstring "work"))))
         "work" "config_path"
       = Return (GVstring path_b).
Proof.
  eexists. split; [reflexivity|]. split; [reflexivity|]. split; [reflexivity|].
  split; [reflexivity|]. split; [reflexivity|].
  pose proof (set_alias_succeeds string (plain_parse 64) plain_export
                plain_json_export (plain_reached two_imports) path_b _ "work"
                eq_refl eq_refl eq_refl eq_refl eq_refl) as H.
  split; [exact (proj1 H)|exact (proj1 (proj2 (proj2 (proj2 H))))].
Defined.

Lemma malformed_alias_is_refused_witness :
  exists o,
    StdMap.find path_b (config_objects (plain_reached two_aliases)) = Some o
    /\ readonly o = false
    /\ path_elements "" true = false
    /\ fst (plain_step (plain_reached two_aliases)
              (PropertySet path_b (DBusCredentials.owner (creds o)) "alias"
                           (GVstring "")))
       = Error (AliasExists "Specified alias is invalid")
    /\ StdMap.find "work" (detach_alias (plain_reached two_aliases) o) = None.
Proof.
  eexists. split; [reflexivity|]. split; [reflexivity|]. split; [reflexivity|].
  pose proof (malformed_alias_is_refused string (plain_parse 64) plain_export
                plain_json_export (plain_reached two_aliases) path_b _ ""
                eq_refl eq_refl eq_refl) as H.
  split; [exact (f_equal fst (proj1 H))|exact (proj2 H "work" eq_refl)].
Defined.

Lemma aliases_change_only_by_alias_write_witness :
  alias_objects
    (snd (plain_step (plain_reached two_imports)
            (PropertySet path_b 1000 "alias" (GVstring "work"))))
  <> alias_objects (plain_reached two_imports)
  /\ exists p o value,
       PropertySet path_b 1000 "alias" (GVstring "work")
       = PropertySet p (DBusCredentials.owner (creds o)) "alias" value
       /\ StdMap.find p (config_objects (plain_reached two_imports)) = Some o
       /\ readonly o = false.
Proof.
  assert (Hch : alias_objects
                  (snd (plain_step (plain_reached two_imports)
                          (PropertySet path_b 1000 "alias" (GVstring "work"))))
                <> alias_objects (plain_reached two_imports))
    by discriminate.
  split; [exact Hch|].
  exact (aliases_change_only_by_alias_write string (plain_parse 64) plain_export
           plain_json_export (plain_reached two_imports)
           (PropertySet path_b 1000 "alias" (GVstring "work")) Hch).
Defined.

Lemma reachable_profiles_are_valid_witness :
  exists o,
    StdMap.find path_b (config_objects (plain_reached sealed_work)) = Some o
    /\ valid o = true
    /\ used_count o < UINT_MODULUS.
Proof.
  eexists. split; [reflexivity|].
  pose proof (reachable_profiles_are_valid string (plain_parse 64) plain_export
                plain_json_export sealed_work path_b _ eq_refl) as H.
  split; [exact (proj1 H)|exact (proj1 (proj2 H))].
Defined.

(** After Remove the alias of the removed profile is still exported and
    still names the path, where nothing answers any more. *)
Example removed_profile_keeps_alias_exported :
  StdMap.find path_b (config_objects (plain_reached aliased_then_removed)) = None
  /\ alias_property_get (plain_reached aliased_then_removed) "work" "config_path"
     = Return (GVstring path_b)
  /\ fst (plain_step (plain_reached aliased_then_removed)
            (PropertySet path_a 1000 "alias" (GVstring "work")))
     = Error (AliasExists "Object path is already registered").
Proof. repeat split. Qed.

Lemma root_fetches_are_counted_witness :
  exists o,
    StdMap.find path_b (config_objects (plain_reached two_imports)) = Some o
    /\ single_use o = false
    /\ used_count o < UINT_MODULUS
    /\ exists o',
         StdMap.find path_b
           (config_objects
              (plain_run (plain_reached two_imports)
                 (root_fetches path_b [1500000001%Z; 1500000002%Z; 1500000003%Z])))
         = Some o'
         /\ used_count o' = (used_count o + 3) mod UINT_MODULUS
         /\ import_data o' = import_data o.
Proof.
  eexists. split; [reflexivity|]. split; [reflexivity|]. split; [reflexivity|].
  exact (root_fetches_are_counted string (plain_parse 64) plain_export
           plain_json_export (plain_reached two_imports) path_b _
           [1500000001%Z; 1500000002%Z; 1500000003%Z] eq_refl eq_refl eq_refl).
Defined.
